(** * The financial projection engine of the AI investment dashboard

    A shallow embedding of [calculate_financials] from
    [use_case_dashboard_app.py], together with the properties of the
    year-by-year ledger and of the summary metrics that it returns.

    Numbers.  The program computes with Python [int]s and [float]s.  Both are
    embedded as exact rationals ([Q]): this is the usual idealisation of
    floating point by exact arithmetic, and every equation between amounts is
    stated up to [==] ([Qeq]).  What exact arithmetic cannot express by itself,
    namely what a division by zero does, is written out:
    - a division between Python numbers raises [ZeroDivisionError];
    - a division whose left operand is a numpy [float64] (a cell or a column
      sum of the pandas [DataFrame]) follows IEEE 754 and yields an infinity
      or a NaN.

    What the range of a [float] adds is outside the model: rounding; an
    amount that overflows to an infinity or underflows to zero; the
    [OverflowError] that [**] raises when a power leaves the range, and that
    a product raises when an [int] operand does.  The properties below are
    about the amounts of the ledger and of the metrics; none of them says
    for which arguments of extreme size the program raises. *)

From Stdlib Require Import ZArith QArith Qabs Qminmax Qpower.
From Stdlib Require Import String Ascii Bool Lia Lqa List.
From Stdlib Require Import Qround DecimalString DecimalN.
Import ListNotations.

Open Scope Q_scope.

(** ** Python values *)

(** The exceptions of the arithmetic and of the look-ups of the function, in
    exact arithmetic ([OverflowError] belongs to the range of a [float]). *)
Inductive exn : Type :=
| ZeroDivisionError
| KeyError.

(** A computation either returns a value or raises. *)
Inductive result (A : Type) : Type :=
| Ok (a : A)
| Raise (e : exn).
Arguments Ok {A} a.
Arguments Raise {A} e.

Definition bind {A B : Type} (c : result A) (k : A -> result B) : result B :=
  match c with
  | Ok a => k a
  | Raise e => Raise e
  end.

Notation "x <- c ;; k" := (bind c (fun x => k))
  (at level 61, c at next level, right associativity).

(** A numpy [float64] scalar: a finite amount, an infinity or a NaN. *)
Inductive float64 : Type :=
| Finite (q : Q)
| PosInf
| NegInf
| NaN.

(** [a < b] on amounts, as a boolean. *)
Definition Qltb (a b : Q) : bool := negb (Qle_bool b a).

(** [a / b] between Python numbers. *)
Definition py_truediv (a b : Q) : result Q :=
  if Qeq_bool b 0 then Raise ZeroDivisionError else Ok (a / b).

(** [min(a, b)]: the first argument, unless the second is smaller. *)
Definition py_min (a b : Q) : Q :=
  if Qltb b a then b else a.

(** [base ** e] for an exponent that is a non-negative [int], as the exact
    power. *)
Definition py_pow (base : Q) (e : Z) : Q := base ^ e.

(** [range(lo, hi)]. *)
Definition py_range (lo hi : Z) : list Z :=
  map (fun i => (lo + Z.of_nat i)%Z) (seq 0 (Z.to_nat (hi - lo))).

(** [a / b] where [a] is a finite numpy scalar.  numpy divides as IEEE 754
    does and raises nothing (it warns): a zero divisor gives an infinity of
    the sign of [a], or NaN for [0 / 0]. *)
Definition np_truediv (a b : Q) : float64 :=
  if Qeq_bool b 0 then
    if Qltb 0 a then PosInf
    else if Qltb a 0 then NegInf
    else NaN
  else Finite (a / b).

(** [x * k] for a numpy scalar [x] and a Python number [k]. *)
Definition np_mul (x : float64) (k : Q) : float64 :=
  match x with
  | Finite q => Finite (q * k)
  | PosInf => if Qltb 0 k then PosInf else if Qltb k 0 then NegInf else NaN
  | NegInf => if Qltb 0 k then NegInf else if Qltb k 0 then PosInf else NaN
  | NaN => NaN
  end.

(** [k + x] for a Python number [k] and a numpy scalar [x]. *)
Definition np_radd (k : Q) (x : float64) : float64 :=
  match x with
  | Finite q => Finite (k + q)
  | other => other
  end.

(** A [for] loop over a list, threading the variables the body assigns. *)
Fixpoint for_each {S : Type} (body : S -> Z -> result S) (xs : list Z) (s : S)
  : result S :=
  match xs with
  | [] => Ok s
  | x :: rest => s' <- body s x ;; for_each body rest s'
  end.

(** ** The data model *)

Module Template.
(** [UseCaseTemplate], the dataclass. *)
Record t : Type := mk {
  name : string;
  description : string;
  base_volume : Z;
  base_value : Q;
  process_cost : Q;
  revenue_factor : Q;
  savings_factor : Q;
  default_revenue_lift : Q;
  default_cost_savings : Q;
  default_investment : Q;
  default_maintenance_pct : Q;
  impact_categories : list string;
  category_colors : list string
}.
End Template.
Definition UseCaseTemplate : Type := Template.t.

Module Row.
(** One dictionary appended to [years]: a row of the data frame. *)
Record t : Type := mk {
  year : Z;
  investment_cost : Q;
  maintenance_cost : Q;
  revenue_lift : Q;
  cost_savings : Q;
  operational_benefit : Q;
  net_cash_flow : Q;
  cumulative_cf : Q;
  discounted_cf : Q
}.
End Row.

(** The data frame, as the list of its rows; the row labels are 0, 1, ... *)
Definition DataFrame : Type := list Row.t.

(** The value of [payback]: the string ['N/A'] or a number. *)
Inductive payback_t : Type :=
| PaybackNA
| PaybackNum (v : float64).

Module Metrics.
(** The [metrics] dictionary. *)
Record t : Type := mk {
  npv : Q;
  roi : float64;
  payback : payback_t;
  total_benefits : Q;
  total_costs : Q
}.
End Metrics.

(** [df[col].sum()]. *)
Definition column_sum (col : Row.t -> Q) (df : DataFrame) : Q :=
  fold_left Qplus (map col df) 0.

(** [df.loc[idx, ...]]: the row labelled [idx]. *)
Definition df_loc (df : DataFrame) (idx : nat) : result Row.t :=
  match nth_error df idx with
  | Some row => Ok row
  | None => Raise KeyError
  end.

(** The first entry of [USE_CASE_TEMPLATES]. *)
Definition order_management : UseCaseTemplate :=
  {| Template.name := "Order Management & Validation";
     Template.description :=
       "Improve order capture, validation, and exception handling for complex product configurations";
     Template.base_volume := 50000;
     Template.base_value := 2500;
     Template.process_cost := 85;
     Template.revenue_factor := 0.65;
     Template.savings_factor := 0.35;
     Template.default_revenue_lift := 0.18;
     Template.default_cost_savings := 0.25;
     Template.default_investment := 500000;
     Template.default_maintenance_pct := 0.20;
     Template.impact_categories :=
       ["Process Automation"; "Error Reduction"; "Cycle Time Improvement"]%string;
     Template.category_colors := ["#3B82F6"; "#10B981"; "#8B5CF6"]%string |}.

(** ** [calculate_financials] *)

(** The body of the loop [for year in range(1, time_horizon + 1)].  The loop
    assigns [years] and [cumulative_cf]. *)
Definition year_body
  (revenue_lift_amount cost_savings_amount annual_maintenance discount_rate : Q)
  (st : list Row.t * Q) (year : Z) : result (list Row.t * Q) :=
  let '(years, cumulative_cf) := st in
  let ramp_factor := py_min (0.6 + (inject_Z year * 0.15)) 1.0 in
  let growth_factor := 1 + (0.03 * inject_Z (year - 1)) in
  let year_revenue := revenue_lift_amount * ramp_factor * growth_factor in
  let year_savings := cost_savings_amount * ramp_factor * growth_factor in
  let total_benefit := year_revenue + year_savings in
  let net_cf := total_benefit - annual_maintenance in
  let cumulative_cf := cumulative_cf + net_cf in
  discounted_cf <- py_truediv net_cf (py_pow (1 + discount_rate) year) ;;
  Ok (years ++
        [ {| Row.year := year;
             Row.investment_cost := 0;
             Row.maintenance_cost := annual_maintenance;
             Row.revenue_lift := year_revenue;
             Row.cost_savings := year_savings;
             Row.operational_benefit := total_benefit;
             Row.net_cash_flow := net_cf;
             Row.cumulative_cf := cumulative_cf;
             Row.discounted_cf := discounted_cf |} ],
      cumulative_cf).

(** The loop [for idx, row in df.iterrows()] that looks for the payback
    period; [rows] are the rows still to visit and [idx] the label of the first
    of them.  Falling off the end leaves [payback] at ['N/A']. *)
Fixpoint payback_loop (df : DataFrame) (rows : list Row.t) (idx : nat)
  : result payback_t :=
  match rows with
  | [] => Ok PaybackNA
  | row :: rest =>
      if Qltb 0 (Row.cumulative_cf row) then
        if Nat.eqb idx 0 then Ok (PaybackNum (Finite 0))
        else
          prev <- df_loc df (idx - 1) ;;
          let prev_cf := Row.cumulative_cf prev in
          let curr_cf := Row.cumulative_cf row in
          let year_fraction := np_truediv (Qabs prev_cf) (curr_cf - prev_cf) in
          Ok (PaybackNum (np_radd (inject_Z (Z.of_nat (idx - 1))) year_fraction))
      else payback_loop df rest (S idx)
  end.

(** The function.  [df[col].sum()] and the cells read back from [df] are numpy
    scalars, so the divisions behind [roi] and [year_fraction] are numpy's;
    the two discountings divide Python floats. *)
Definition calculate_financials
  (template : UseCaseTemplate)
  (initial_investment annual_maintenance_pct revenue_lift_pct cost_savings_pct
     discount_rate : Q)
  (time_horizon : Z)
  (base_volume : Z)
  (base_value process_cost : Q)
  : result (DataFrame * Metrics.t) :=
  let annual_maintenance := initial_investment * annual_maintenance_pct in
  let revenue_lift_amount :=
    inject_Z base_volume * base_value * Template.revenue_factor template
    * revenue_lift_pct in
  let cost_savings_amount :=
    inject_Z base_volume * process_cost * Template.savings_factor template
    * cost_savings_pct in
  let years : list Row.t := [] in
  let year0_benefit := (revenue_lift_amount + cost_savings_amount) * 0.15 in
  let year0_net := year0_benefit - initial_investment in
  let cumulative_cf := year0_net in
  year0_discounted <- py_truediv year0_net (py_pow (1 + discount_rate) 0) ;;
  let years :=
    years ++
      [ {| Row.year := 0;
           Row.investment_cost := initial_investment;
           Row.maintenance_cost := 0;
           Row.revenue_lift := revenue_lift_amount * 0.15;
           Row.cost_savings := cost_savings_amount * 0.15;
           Row.operational_benefit := year0_benefit;
           Row.net_cash_flow := year0_net;
           Row.cumulative_cf := cumulative_cf;
           Row.discounted_cf := year0_discounted |} ] in
  st <- for_each
          (year_body revenue_lift_amount cost_savings_amount annual_maintenance
             discount_rate)
          (py_range 1 (time_horizon + 1)) (years, cumulative_cf) ;;
  let df : DataFrame := fst st in
  let npv := column_sum Row.discounted_cf df in
  let total_benefits := column_sum Row.operational_benefit df in
  let total_costs :=
    initial_investment + (annual_maintenance * inject_Z time_horizon) in
  let roi := np_mul (np_truediv (total_benefits - total_costs) total_costs) 100 in
  payback <- payback_loop df df 0 ;;
  Ok (df,
      {| Metrics.npv := npv;
         Metrics.roi := roi;
         Metrics.payback := payback;
         Metrics.total_benefits := total_benefits;
         Metrics.total_costs := total_costs |}).

(** ** The amounts the projection is built from *)

(** The three quantities computed before the projection starts. *)
Definition annual_maintenance_of (initial_investment annual_maintenance_pct : Q) : Q :=
  initial_investment * annual_maintenance_pct.

Definition revenue_lift_amount_of
  (template : UseCaseTemplate) (base_volume : Z) (base_value revenue_lift_pct : Q) : Q :=
  inject_Z base_volume * base_value * Template.revenue_factor template
  * revenue_lift_pct.

Definition cost_savings_amount_of
  (template : UseCaseTemplate) (base_volume : Z) (process_cost cost_savings_pct : Q) : Q :=
  inject_Z base_volume * process_cost * Template.savings_factor template
  * cost_savings_pct.

(** A year index as an amount. *)
Definition Qyear (y : nat) : Q := inject_Z (Z.of_nat y).

(** The sum of a column, as a mathematical sum over the rows. *)
Definition total (col : Row.t -> Q) (df : DataFrame) : Q :=
  fold_right (fun row acc => col row + acc) 0 df.

(** The documented domain of the inputs. *)
Definition valid_input
  (template : UseCaseTemplate)
  (initial_investment annual_maintenance_pct revenue_lift_pct cost_savings_pct
     discount_rate : Q)
  (time_horizon : Z) (base_volume : Z) (base_value process_cost : Q) : Prop :=
  (1 <= time_horizon)%Z /\
  -1 < discount_rate /\
  (0 <= base_volume)%Z /\
  0 <= base_value /\
  0 <= process_cost /\
  0 <= initial_investment /\
  (0 <= annual_maintenance_pct /\ annual_maintenance_pct <= 1) /\
  (0 <= revenue_lift_pct /\ revenue_lift_pct <= 1) /\
  (0 <= cost_savings_pct /\ cost_savings_pct <= 1) /\
  (0 <= Template.revenue_factor template /\ Template.revenue_factor template <= 1) /\
  (0 <= Template.savings_factor template /\ Template.savings_factor template <= 1).

(** [payback] is the number [q]. *)
Definition payback_is (p : payback_t) (q : Q) : Prop :=
  match p with
  | PaybackNum (Finite v) => v == q
  | _ => False
  end.

(** The [metrics] dictionary built from the finished data frame [df] and the
    payback [p] that the search returned. *)
Definition metrics_of
  (initial_investment annual_maintenance_pct : Q) (time_horizon : Z)
  (df : DataFrame) (p : payback_t) : Metrics.t :=
  let annual_maintenance := initial_investment * annual_maintenance_pct in
  let npv := column_sum Row.discounted_cf df in
  let total_benefits := column_sum Row.operational_benefit df in
  let total_costs :=
    initial_investment + (annual_maintenance * inject_Z time_horizon) in
  {| Metrics.npv := npv;
     Metrics.roi :=
       np_mul (np_truediv (total_benefits - total_costs) total_costs) 100;
     Metrics.payback := p;
     Metrics.total_benefits := total_benefits;
     Metrics.total_costs := total_costs |}.

(** ** The payback search, in words *)

(** Year [y] is the first one whose cumulative cash flow is positive. *)
Definition first_positive (df : DataFrame) (y : nat) : Prop :=
  (exists r, nth_error df y = Some r /\ 0 < Row.cumulative_cf r) /\
  forall k r, (k < y)%nat -> nth_error df k = Some r -> Row.cumulative_cf r <= 0.

(** No year has a positive cumulative cash flow. *)
Definition never_positive (df : DataFrame) : Prop :=
  forall y r, nth_error df y = Some r -> Row.cumulative_cf r <= 0.

(** ** The ledger in closed form *)

(** What the loop leaves in [years] and in [cumulative_cf], written as
    functions of the year.  They serve the proofs; the theorems speak of
    [calculate_financials]. *)
Section LedgerTerms.

Variables revenue_lift_amount cost_savings_amount annual_maintenance : Q.
Variables initial_investment discount_rate : Q.

(** The net cash flow of year [year >= 1], as the loop body computes it. *)
Definition net_cf_at (year : Z) : Q :=
  let ramp_factor := py_min (0.6 + (inject_Z year * 0.15)) 1.0 in
  let growth_factor := 1 + (0.03 * inject_Z (year - 1)) in
  revenue_lift_amount * ramp_factor * growth_factor
  + cost_savings_amount * ramp_factor * growth_factor
  - annual_maintenance.

(** The value of the variable [cumulative_cf] after year [y]. *)
Fixpoint cum_at (y : nat) : Q :=
  match y with
  | O => (revenue_lift_amount + cost_savings_amount) * 0.15 - initial_investment
  | S k => cum_at k + net_cf_at (Z.of_nat (S k))
  end.

(** The row appended for year [y]. *)
Definition row_at (y : nat) : Row.t :=
  match y with
  | O =>
      let year0_benefit := (revenue_lift_amount + cost_savings_amount) * 0.15 in
      let year0_net := year0_benefit - initial_investment in
      {| Row.year := 0;
         Row.investment_cost := initial_investment;
         Row.maintenance_cost := 0;
         Row.revenue_lift := revenue_lift_amount * 0.15;
         Row.cost_savings := cost_savings_amount * 0.15;
         Row.operational_benefit := year0_benefit;
         Row.net_cash_flow := year0_net;
         Row.cumulative_cf := year0_net;
         Row.discounted_cf := year0_net / py_pow (1 + discount_rate) 0 |}
  | S k =>
      let year := Z.of_nat (S k) in
      let ramp_factor := py_min (0.6 + (inject_Z year * 0.15)) 1.0 in
      let growth_factor := 1 + (0.03 * inject_Z (year - 1)) in
      let year_revenue := revenue_lift_amount * ramp_factor * growth_factor in
      let year_savings := cost_savings_amount * ramp_factor * growth_factor in
      {| Row.year := year;
         Row.investment_cost := 0;
         Row.maintenance_cost := annual_maintenance;
         Row.revenue_lift := year_revenue;
         Row.cost_savings := year_savings;
         Row.operational_benefit := year_revenue + year_savings;
         Row.net_cash_flow := net_cf_at year;
         Row.cumulative_cf := cum_at (S k);
         Row.discounted_cf := net_cf_at year / py_pow (1 + discount_rate) year |}
  end.

(** The rows of years [0 .. n]. *)
Definition ledger_upto (n : nat) : DataFrame := map row_at (seq 0 (S n)).

End LedgerTerms.

(** ** The charts *)

(** An indexing [xs[idx]] returns the element or raises [IndexError]. *)
Inductive indexing (A : Type) : Type :=
| Indexed (a : A)
| IndexError.
Arguments Indexed {A} a.
Arguments IndexError {A}.

Definition indexing_bind {A B : Type} (c : indexing A) (k : A -> indexing B)
  : indexing B :=
  match c with
  | Indexed a => k a
  | IndexError => IndexError
  end.

(** [xs[idx]] for an index that is not negative. *)
Definition py_getitem {A : Type} (xs : list A) (idx : nat) : indexing A :=
  match nth_error xs idx with
  | Some x => Indexed x
  | None => IndexError
  end.

Module Figure.
(** A plotly trace, with the arguments the code passes. *)
Inductive trace : Type :=
| Bar (x : list Z) (y : list Q) (name marker_color hovertemplate : string)
| Scatter (x : list Z) (y : list Q) (name mode : string)
    (marker_size : Z) (marker_color : string)
    (line_width : Z) (line_color : string) (hovertemplate : string).

(** The arguments of [add_hline]. *)
Record hline : Type := mk_hline {
  hline_y : Q;
  line_dash : string;
  hline_color : string;
  opacity : Q
}.

(** The [legend] dictionary of [update_layout]. *)
Record legend_t : Type := mk_legend {
  orientation : string;
  yanchor : string;
  legend_y : Q;
  xanchor : string;
  legend_x : Q
}.

(** A figure: its traces in the order added, its horizontal lines and the
    layout the code sets. *)
Record t : Type := mk {
  data : list trace;
  hlines : list hline;
  title : string;
  xaxis_title : string;
  yaxis_title : string;
  barmode : option string;
  hovermode : string;
  legend : legend_t;
  height : Z;
  template : string
}.
End Figure.

(** The legend both charts use. *)
Definition chart_legend : Figure.legend_t :=
  {| Figure.orientation := "h";
     Figure.yanchor := "bottom";
     Figure.legend_y := 1.02;
     Figure.xanchor := "right";
     Figure.legend_x := 1 |}.

(** [df[col]] as the list of the cells of the column. *)
Definition column {A : Type} (col : Row.t -> A) (df : DataFrame) : list A :=
  map col df.

Definition create_cash_flow_chart (df : DataFrame) : Figure.t :=
  let bars :=
    Figure.Bar (column Row.year df) (column Row.net_cash_flow df)
      "Net Annual Cash Flow" "#3B82F6"
      "Year %{x}<br>Net CF: $%{y:,.0f}<extra></extra>" in
  let line :=
    Figure.Scatter (column Row.year df) (column Row.cumulative_cf df)
      "Cumulative Cash Flow" "lines+markers" 8 "#F59E0B" 3 "#F59E0B"
      "Year %{x}<br>Cumulative: $%{y:,.0f}<extra></extra>" in
  {| Figure.data := [] ++ [bars] ++ [line];
     Figure.hlines :=
       [ {| Figure.hline_y := 0;
            Figure.line_dash := "dash";
            Figure.hline_color := "gray";
            Figure.opacity := 0.5 |} ];
     Figure.title := "Cash Flow Projection";
     Figure.xaxis_title := "Year";
     Figure.yaxis_title := "Amount ($)";
     Figure.barmode := None;
     Figure.hovermode := "x unified";
     Figure.legend := chart_legend;
     Figure.height := 400;
     Figure.template := "plotly_white" |}.

(** [df[df['year'] > 0]]. *)
Definition after_year_0 (df : DataFrame) : DataFrame :=
  filter (fun r => (0 <? Row.year r)%Z) df.

(** The first loop of [create_impact_chart]: one list of values per impact
    category, the benefit of each year after year 0 times a third of the
    variation of the category. *)
Fixpoint categories_loop (df : DataFrame) (categories : list string)
  (idx : nat) (categories_data : list (list Q)) : indexing (list (list Q)) :=
  match categories with
  | [] => Indexed categories_data
  | category :: rest =>
      indexing_bind (py_getitem [1.2; 1.0; 0.8] idx) (fun variation =>
      let values :=
        map (fun r => Row.operational_benefit r * (variation / 3))
          (after_year_0 df) in
      categories_loop df rest (S idx) (categories_data ++ [values]))
  end.

(** The second loop: one bar trace per category, coloured by position.  The
    colour is taken as it is; the check that [go.Bar] makes of it is in
    [checked_traces_loop] below. *)
Fixpoint traces_loop (template : UseCaseTemplate) (years : list Z)
  (pairs : list (string * list Q)) (idx : nat) (traces : list Figure.trace)
  : indexing (list Figure.trace) :=
  match pairs with
  | [] => Indexed traces
  | (category, values) :: rest =>
      indexing_bind (py_getitem (Template.category_colors template) idx)
        (fun color =>
      traces_loop template years rest (S idx)
        (traces ++
           [Figure.Bar years values category color
              (category ++ "<br>Year %{x}<br>$%{y:,.0f}<extra></extra>")]))
  end.

Definition create_impact_chart (df : DataFrame) (template : UseCaseTemplate)
  : indexing Figure.t :=
  indexing_bind
    (categories_loop df (Template.impact_categories template) 0 [])
    (fun categories_data =>
  let years := column Row.year (after_year_0 df) in
  indexing_bind
    (traces_loop template years
       (combine (Template.impact_categories template) categories_data) 0 [])
    (fun traces =>
  Indexed
    {| Figure.data := traces;
       Figure.hlines := [];
       Figure.title := "Use Case Impact Analysis";
       Figure.xaxis_title := "Year";
       Figure.yaxis_title := "Annual Benefit ($)";
       Figure.barmode := Some "stack"%string;
       Figure.hovermode := "x unified";
       Figure.legend := chart_legend;
       Figure.height := 400;
       Figure.template := "plotly_white" |})).

(** ** The impact chart with the colour check of plotly

    [go.Bar] checks its [marker_color] and raises [ValueError] on a text
    that is no colour.  Which texts are colours is decided by plotly, not by
    this program, so the check is a parameter [is_color].
    [create_impact_chart] above is the chart with the check left out; the
    definitions below are the same two loops with the check in its place. *)
Inductive chart_outcome (A : Type) : Type :=
| Drawn (a : A)
| RaisedIndexError
| RaisedValueError.
Arguments Drawn {A} a.
Arguments RaisedIndexError {A}.
Arguments RaisedValueError {A}.

Definition chart_bind {A B : Type} (c : chart_outcome A)
  (k : A -> chart_outcome B) : chart_outcome B :=
  match c with
  | Drawn a => k a
  | RaisedIndexError => RaisedIndexError
  | RaisedValueError => RaisedValueError
  end.

(** An indexing inside the checked chart. *)
Definition chart_index {A : Type} (c : indexing A) : chart_outcome A :=
  match c with
  | Indexed a => Drawn a
  | IndexError => RaisedIndexError
  end.

Section ColourCheck.

Variable is_color : string -> bool.

(** [go.Bar(x=, y=, name=, marker_color=, hovertemplate=)]. *)
Definition go_Bar (x : list Z) (y : list Q)
  (name marker_color hovertemplate : string) : chart_outcome Figure.trace :=
  if is_color marker_color
  then Drawn (Figure.Bar x y name marker_color hovertemplate)
  else RaisedValueError.

(** The second loop: the colour is taken by position, then the bar is
    built. *)
Fixpoint checked_traces_loop (template : UseCaseTemplate) (years : list Z)
  (pairs : list (string * list Q)) (idx : nat) (traces : list Figure.trace)
  : chart_outcome (list Figure.trace) :=
  match pairs with
  | [] => Drawn traces
  | (category, values) :: rest =>
      chart_bind
        (chart_index (py_getitem (Template.category_colors template) idx))
        (fun color =>
      chart_bind
        (go_Bar years values category color
           (category ++ "<br>Year %{x}<br>$%{y:,.0f}<extra></extra>"))
        (fun bar =>
      checked_traces_loop template years rest (S idx) (traces ++ [bar])))
  end.

Definition create_impact_chart_checked (df : DataFrame)
  (template : UseCaseTemplate) : chart_outcome Figure.t :=
  chart_bind
    (chart_index
       (categories_loop df (Template.impact_categories template) 0 []))
    (fun categories_data =>
  let years := column Row.year (after_year_0 df) in
  chart_bind
    (checked_traces_loop template years
       (combine (Template.impact_categories template) categories_data) 0 [])
    (fun traces =>
  Drawn
    {| Figure.data := traces;
       Figure.hlines := [];
       Figure.title := "Use Case Impact Analysis";
       Figure.xaxis_title := "Year";
       Figure.yaxis_title := "Annual Benefit ($)";
       Figure.barmode := Some "stack"%string;
       Figure.hovermode := "x unified";
       Figure.legend := chart_legend;
       Figure.height := 400;
       Figure.template := "plotly_white" |})).

End ColourCheck.

(** One check among those possible: it accepts the colours written as [#]
    and six hexadecimal digits, and nothing else. *)
Definition is_hex_digit (a : ascii) : bool :=
  let n := nat_of_ascii a in
  ((48 <=? n) && (n <=? 57) || (65 <=? n) && (n <=? 70)
   || (97 <=? n) && (n <=? 102))%nat.

Definition hex_color (s : string) : bool :=
  match s with
  | String "#" digits =>
      (String.length digits =? 6)%nat
      && forallb is_hex_digit (list_ascii_of_string digits)
  | _ => false
  end.

(** What a figure shows: the name, the colour and the points of a trace,
    and, for bars drawn with [barmode='stack'], the height of the stack at a
    position: the sum of the values the traces have there. *)
Definition trace_x (t : Figure.trace) : list Z :=
  match t with
  | Figure.Bar x _ _ _ _ => x
  | Figure.Scatter x _ _ _ _ _ _ _ _ => x
  end.

Definition trace_y (t : Figure.trace) : list Q :=
  match t with
  | Figure.Bar _ y _ _ _ => y
  | Figure.Scatter _ y _ _ _ _ _ _ _ => y
  end.

Definition trace_name (t : Figure.trace) : string :=
  match t with
  | Figure.Bar _ _ name _ _ => name
  | Figure.Scatter _ _ name _ _ _ _ _ _ => name
  end.

Definition trace_color (t : Figure.trace) : string :=
  match t with
  | Figure.Bar _ _ _ color _ => color
  | Figure.Scatter _ _ _ _ _ color _ _ _ => color
  end.


(** The sum of a list of amounts. *)
Definition Qsum (xs : list Q) : Q := fold_right Qplus 0 xs.

(** ** The table, the cards and the download of [main] *)

(** Rounding to the nearest integer, a tie going to the even one: the
    rounding of Python's fixed-point formats. *)
Definition round_half_even (x : Q) : Z :=
  let f := Qfloor x in
  let r := x - inject_Z f in
  if Qltb r (1 # 2) then f
  else if Qltb (1 # 2) r then (f + 1)%Z
  else if Z.even f then f else (f + 1)%Z.

(** The decimal digits of a natural number. *)
Definition digits (n : N) : string := NilZero.string_of_uint (N.to_uint n).

(** A comma before every group of three characters, counting from the end;
    [reversed] is the text read backwards and [k] counts the characters
    since the last comma. *)
Fixpoint commas (reversed : list ascii) (k : nat) : list ascii :=
  match reversed with
  | [] => []
  | c :: rest =>
      if Nat.eqb k 3 then ","%char :: c :: commas rest 1
      else c :: commas rest (S k)
  end.

Definition group_thousands (s : string) : string :=
  string_of_list_ascii (rev (commas (rev (list_ascii_of_string s)) 0)).

(** The sign a format writes: a minus for a negative number. *)
Definition minus_sign (x : Q) : string := if Qltb x 0 then "-" else "".

(** The digits of [|x|] rounded to an integer. *)
Definition rounded_digits (x : Q) : string :=
  digits (Z.to_N (round_half_even (Qabs x))).

(** [format(x, ',.0f')], [format(x, '.0f')] and [format(x, '.1f')] for a
    finite number. *)
Definition format_comma_0f (x : Q) : string :=
  minus_sign x ++ group_thousands (rounded_digits x).

Definition format_0f (x : Q) : string :=
  minus_sign x ++ rounded_digits x.

Definition format_1f (x : Q) : string :=
  let tenths := Z.to_N (round_half_even (Qabs x * 10)) in
  minus_sign x ++ digits (tenths / 10) ++ "." ++ digits (tenths mod 10).

(** The same formats for a numpy scalar, which may be infinite or NaN. *)
Definition format_float64 (fmt : Q -> string) (v : float64) : string :=
  match v with
  | Finite q => fmt q
  | PosInf => "inf"
  | NegInf => "-inf"
  | NaN => "nan"
  end.

(** [str(n)] for an [int]. *)
Definition str_int (n : Z) : string := NilZero.string_of_int (Z.to_int n).

(** [s.replace(old, new)] for an [old] of one character. *)
Fixpoint str_replace (old : ascii) (new : string) (s : string) : string :=
  match s with
  | EmptyString => EmptyString
  | String a rest =>
      if Ascii.eqb a old then new ++ str_replace old new rest
      else String a (str_replace old new rest)
  end.

(** [float(s)] for a text that is a run of digits, with or without a minus
    before it: the texts the table feeds it.  On any other text the model
    says nothing ([None]). *)
Definition py_float (s : string) : option Q :=
  match s with
  | EmptyString => None
  | String a rest =>
      if Ascii.eqb a "-" then
        option_map (fun d => - inject_Z (Z.of_N (N.of_uint d)))
          (NilZero.uint_of_string rest)
      else
        option_map (fun d => inject_Z (Z.of_N (N.of_uint d)))
          (NilZero.uint_of_string s)
  end.

(** [x / k] for a numpy scalar [x] and a Python number [k]. *)
Definition np_div (x : float64) (k : Q) : float64 :=
  match x with
  | Finite q => np_truediv q k
  | PosInf => if Qltb k 0 then NegInf else PosInf
  | NegInf => if Qltb k 0 then PosInf else NegInf
  | NaN => NaN
  end.

(** [f"${x:,.0f}"]. *)
Definition money (x : Q) : string := "$" ++ format_comma_0f x.

(** [f"${x:,.0f}" if x > 0 else "—"]. *)
Definition money_or_dash (x : Q) : string :=
  if Qltb 0 x then money x else "—".

Module DisplayRow.
(** A row of [display_df], with the six columns kept. *)
Record t : Type := mk {
  Year : Z;
  Investment_Cost : string;
  Maintenance : string;
  Operational_Benefits : string;
  Net_Cash_Flow : string;
  Cumulative_CF : string
}.
End DisplayRow.

Definition display_row (r : Row.t) : DisplayRow.t :=
  {| DisplayRow.Year := Row.year r;
     DisplayRow.Investment_Cost := money_or_dash (Row.investment_cost r);
     DisplayRow.Maintenance := money_or_dash (Row.maintenance_cost r);
     DisplayRow.Operational_Benefits := money (Row.operational_benefit r);
     DisplayRow.Net_Cash_Flow := money (Row.net_cash_flow r);
     DisplayRow.Cumulative_CF := money (Row.cumulative_cf r) |}.

Definition display_df (df : DataFrame) : list DisplayRow.t :=
  map display_row df.

(** [highlight_positive]: the style of each of the six cells of a row. *)
Definition highlight_positive (row : DisplayRow.t) : option (list string) :=
  match
    py_float
      (str_replace "," "" (str_replace "$" "" (DisplayRow.Cumulative_CF row)))
  with
  | Some cf_value =>
      Some (if Qltb 0 cf_value
            then repeat "background-color: #d4edda"%string 6
            else repeat ""%string 6)
  | None => None
  end.

Module Card.
(** The arguments of one [st.metric]. *)
Record t : Type := mk {
  label : string;
  value : string;
  delta : string
}.
End Card.

Definition npv_card (metrics : Metrics.t) : Card.t :=
  {| Card.label := "Net Present Value";
     Card.value := money (Metrics.npv metrics);
     Card.delta :=
       if Qltb 0 (Metrics.npv metrics) then "Positive Return"
       else "Negative Return" |}.

Definition roi_card (metrics : Metrics.t) (time_horizon : Z) : Card.t :=
  {| Card.label := "Return on Investment";
     Card.value := format_float64 format_0f (Metrics.roi metrics) ++ "%";
     Card.delta :=
       format_float64 format_0f
         (np_div (Metrics.roi metrics) (inject_Z time_horizon))
       ++ "% Annual" |}.

Definition payback_card (metrics : Metrics.t) : Card.t :=
  let payback_display : string :=
    match Metrics.payback metrics with
    | PaybackNum v => (format_float64 format_1f v ++ " Years")%string
    | PaybackNA => "N/A"%string
    end in
  let months_display : string :=
    match Metrics.payback metrics with
    | PaybackNum v =>
        (format_float64 format_0f (np_mul v 12) ++ " Months")%string
    | PaybackNA => "Not Achieved"%string
    end in
  {| Card.label := "Payback Period";
     Card.value := payback_display;
     Card.delta := months_display |}.

Definition total_benefits_card (metrics : Metrics.t) (time_horizon : Z)
  : Card.t :=
  {| Card.label := "Total Benefits";
     Card.value := money (Metrics.total_benefits metrics);
     Card.delta := "Over " ++ str_int time_horizon ++ " Years" |}.

(** The [file_name] of the download button. *)
Definition download_file_name (template : UseCaseTemplate) : string :=
  str_replace " " "_" (Template.name template) ++ "_analysis.csv".

(** ** The page *)

(** The other entries of [USE_CASE_TEMPLATES]. *)
Definition invoice_processing : UseCaseTemplate :=
  {| Template.name := "Invoice Processing & Approval";
     Template.description :=
       "Automate invoice validation, exception handling, and payment optimization";
     Template.base_volume := 120000;
     Template.base_value := 3500;
     Template.process_cost := 45;
     Template.revenue_factor := 0.45;
     Template.savings_factor := 0.55;
     Template.default_revenue_lift := 0.22;
     Template.default_cost_savings := 0.30;
     Template.default_investment := 450000;
     Template.default_maintenance_pct := 0.18;
     Template.impact_categories :=
       ["Straight-Through Processing"; "Early Payment Capture"; "Compliance"]%string;
     Template.category_colors := ["#3B82F6"; "#10B981"; "#8B5CF6"]%string |}.

Definition claims_processing : UseCaseTemplate :=
  {| Template.name := "Insurance Claims Adjudication";
     Template.description :=
       "Accelerate claims processing with automated validation and fraud detection";
     Template.base_volume := 85000;
     Template.base_value := 4200;
     Template.process_cost := 120;
     Template.revenue_factor := 0.50;
     Template.savings_factor := 0.50;
     Template.default_revenue_lift := 0.28;
     Template.default_cost_savings := 0.35;
     Template.default_investment := 650000;
     Template.default_maintenance_pct := 0.22;
     Template.impact_categories :=
       ["Automation Rate"; "Fraud Prevention"; "Cycle Time"]%string;
     Template.category_colors := ["#3B82F6"; "#10B981"; "#8B5CF6"]%string |}.

Definition customer_service : UseCaseTemplate :=
  {| Template.name := "Customer Service Automation";
     Template.description :=
       "Deflect routine inquiries and improve agent productivity with AI assistance";
     Template.base_volume := 250000;
     Template.base_value := 85;
     Template.process_cost := 12;
     Template.revenue_factor := 0.40;
     Template.savings_factor := 0.60;
     Template.default_revenue_lift := 0.15;
     Template.default_cost_savings := 0.45;
     Template.default_investment := 380000;
     Template.default_maintenance_pct := 0.25;
     Template.impact_categories :=
       ["Deflection & Automation"; "Customer Retention"; "Agent Productivity"]%string;
     Template.category_colors := ["#3B82F6"; "#10B981"; "#8B5CF6"]%string |}.

(** The dictionary [USE_CASE_TEMPLATES], in the order it is written. *)
Definition USE_CASE_TEMPLATES : list (string * UseCaseTemplate) :=
  [ ("order-management"%string, order_management);
    ("invoice-processing"%string, invoice_processing);
    ("claims-processing"%string, claims_processing);
    ("customer-service"%string, customer_service) ].

(** The keys of the dictionary [use_case_buttons] of [main]. *)
Definition use_case_buttons : list string :=
  [ "order-management"; "invoice-processing"; "claims-processing";
    "customer-service" ]%string.

(** What can stop the page: a key missing from the dictionary, an exception
    of [calculate_financials], an [IndexError] of the impact chart, or a
    text given to [float] that the model does not read. *)
Inductive page_exn : Type :=
| TemplateKeyError
| Financials (e : exn)
| ChartIndexError
| UnreadAmount.

Inductive page_result (A : Type) : Type :=
| Page (a : A)
| Stopped (e : page_exn).
Arguments Page {A} a.
Arguments Stopped {A} e.

Definition page_bind {A B : Type} (c : page_result A) (k : A -> page_result B)
  : page_result B :=
  match c with
  | Page a => k a
  | Stopped e => Stopped e
  end.

(** [USE_CASE_TEMPLATES[key]]. *)
Fixpoint templates_getitem (dict : list (string * UseCaseTemplate))
  (key : string) : page_result UseCaseTemplate :=
  match dict with
  | [] => Stopped TemplateKeyError
  | (k, template) :: rest =>
      if String.eqb k key then Page template else templates_getitem rest key
  end.

Module Widgets.
(** The values the sidebar widgets return. *)
Record t : Type := mk {
  initial_investment : Z;
  annual_maintenance_pct : Q;
  base_volume : Z;
  base_value : Q;
  process_cost : Q;
  revenue_lift_pct : Q;
  cost_savings_pct : Q;
  discount_rate : Q;
  time_horizon : Z
}.
End Widgets.

(** The bounds and the options the widgets are declared with. *)
Definition within_widget_bounds (w : Widgets.t) : Prop :=
  (0 <= Widgets.initial_investment w)%Z /\
  (0.1 <= Widgets.annual_maintenance_pct w
   /\ Widgets.annual_maintenance_pct w <= 0.5) /\
  (1000 <= Widgets.base_volume w)%Z /\
  10 <= Widgets.base_value w /\
  1 <= Widgets.process_cost w /\
  (0 <= Widgets.revenue_lift_pct w /\ Widgets.revenue_lift_pct w <= 0.5) /\
  (0 <= Widgets.cost_savings_pct w /\ Widgets.cost_savings_pct w <= 0.5) /\
  (0.05 <= Widgets.discount_rate w /\ Widgets.discount_rate w <= 0.20) /\
  In (Widgets.time_horizon w) [3; 5; 7]%Z.

(** [int(x)]: the integer part, towards zero. *)
Definition py_int (x : Q) : Z :=
  if Qltb x 0 then (- Qfloor (- x))%Z else Qfloor x.

(** The widget values of the first run for a template: its defaults, a
    discount rate of 0.08 and the second option of the horizon. *)
Definition default_widgets (template : UseCaseTemplate) : Widgets.t :=
  {| Widgets.initial_investment :=
       py_int (Template.default_investment template);
     Widgets.annual_maintenance_pct := Template.default_maintenance_pct template;
     Widgets.base_volume := Template.base_volume template;
     Widgets.base_value := Template.base_value template;
     Widgets.process_cost := Template.process_cost template;
     Widgets.revenue_lift_pct := Template.default_revenue_lift template;
     Widgets.cost_savings_pct := Template.default_cost_savings template;
     Widgets.discount_rate := 0.08;
     Widgets.time_horizon := 5 |}.

Module PageContent.
(** What [main] computes for the page below the sidebar. *)
Record t : Type := mk {
  button_labels : list string;
  heading : string;
  cards : list Card.t;
  cash_flow_chart : Figure.t;
  impact_chart : Figure.t;
  table : list DisplayRow.t;
  styles : list (list string);
  file_name : string
}.
End PageContent.

(** A loop that stops at the first failure. *)
Fixpoint page_map {A B : Type} (f : A -> page_result B) (xs : list A)
  : page_result (list B) :=
  match xs with
  | [] => Page []
  | x :: rest =>
      page_bind (f x) (fun y =>
      page_bind (page_map f rest) (fun ys => Page (y :: ys)))
  end.

(** The computations of [main], in their order, for the use case selected
    and the values of the widgets: the labels of the buttons, the template,
    the projection, the four cards, the two charts, the table with its
    styles and the name of the download.  Drawing and the text of the
    download are not part of it. *)
Definition main (selected_use_case : string) (w : Widgets.t)
  : page_result PageContent.t :=
  page_bind
    (page_map
       (fun key =>
          page_bind (templates_getitem USE_CASE_TEMPLATES key)
            (fun template => Page (Template.name template)))
       use_case_buttons)
    (fun button_labels =>
  page_bind (templates_getitem USE_CASE_TEMPLATES selected_use_case)
    (fun template =>
  match
    calculate_financials template
      (inject_Z (Widgets.initial_investment w))
      (Widgets.annual_maintenance_pct w)
      (Widgets.revenue_lift_pct w)
      (Widgets.cost_savings_pct w)
      (Widgets.discount_rate w)
      (Widgets.time_horizon w)
      (Widgets.base_volume w)
      (Widgets.base_value w)
      (Widgets.process_cost w)
  with
  | Raise e => Stopped (Financials e)
  | Ok (df, metrics) =>
      let cards :=
        [ npv_card metrics;
          roi_card metrics (Widgets.time_horizon w);
          payback_card metrics;
          total_benefits_card metrics (Widgets.time_horizon w) ] in
      let cash := create_cash_flow_chart df in
      match create_impact_chart df template with
      | IndexError => Stopped ChartIndexError
      | Indexed impact =>
          let display := display_df df in
          page_bind
            (page_map
               (fun row =>
                  match highlight_positive row with
                  | Some style => Page style
                  | None => Stopped UnreadAmount
                  end)
               display)
            (fun styles =>
          Page
            {| PageContent.button_labels := button_labels;
               PageContent.heading := Template.name template;
               PageContent.cards := cards;
               PageContent.cash_flow_chart := cash;
               PageContent.impact_chart := impact;
               PageContent.table := display;
               PageContent.styles := styles;
               PageContent.file_name := download_file_name template |})
      end
  end)).

(** The character is a decimal digit. *)
Definition is_digit (a : ascii) : bool :=
  (48 <=? nat_of_ascii a)%nat && (nat_of_ascii a <=? 57)%nat.

(** The integer a displayed amount stands for: the amount rounded, with its
    sign. *)
Definition rounded_amount (x : Q) : Z :=
  if Qltb x 0 then (- round_half_even (Qabs x))%Z
  else round_half_even (Qabs x).

(** ** Python values: basic facts *)

Lemma Qltb_true (a b : Q) : Qltb a b = true <-> a < b.
Proof.
  unfold Qltb. rewrite negb_true_iff, <- not_true_iff_false, Qle_bool_iff.
  split; intro H; [apply Qnot_le_lt | apply Qlt_not_le]; exact H.
Qed.

Lemma Qltb_false (a b : Q) : Qltb a b = false <-> b <= a.
Proof.
  unfold Qltb. rewrite negb_false_iff. apply Qle_bool_iff.
Qed.

Lemma Qeq_bool_false (a b : Q) : ~ a == b -> Qeq_bool a b = false.
Proof.
  intro H. apply not_true_iff_false. rewrite Qeq_bool_iff. exact H.
Qed.

Lemma py_min_Qmin (a b : Q) : py_min a b == Qmin a b.
Proof.
  unfold py_min. destruct (Qltb b a) eqn:E.
  - apply Qltb_true in E. symmetry. apply Q.min_r. apply Qlt_le_weak, E.
  - apply Qltb_false in E. symmetry. apply Q.min_l. exact E.
Qed.

Lemma py_truediv_ok (a b : Q) : ~ b == 0 -> py_truediv a b = Ok (a / b).
Proof.
  intro H. unfold py_truediv. now rewrite (Qeq_bool_false _ _ H).
Qed.

Lemma np_truediv_finite (a b : Q) : ~ b == 0 -> np_truediv a b = Finite (a / b).
Proof.
  intro H. unfold np_truediv. now rewrite (Qeq_bool_false _ _ H).
Qed.

Lemma for_each_app {S : Type} (body : S -> Z -> result S) (xs ys : list Z) (s : S) :
  for_each body (xs ++ ys) s = (s' <- for_each body xs s ;; for_each body ys s').
Proof.
  revert s. induction xs as [|x xs IH]; intro s; simpl.
  - reflexivity.
  - destruct (body s x) as [s'|e]; simpl; [apply IH | reflexivity].
Qed.

Lemma py_range_from_1 (n : nat) :
  py_range 1 (Z.of_nat n + 1) = map (fun i => Z.of_nat (S i)) (seq 0 n).
Proof.
  unfold py_range.
  replace (Z.to_nat (Z.of_nat n + 1 - 1)) with n by lia.
  apply map_ext. intro i. lia.
Qed.

Lemma py_range_snoc (n : nat) :
  py_range 1 (Z.of_nat (S n) + 1) = py_range 1 (Z.of_nat n + 1) ++ [Z.of_nat (S n)].
Proof.
  rewrite !py_range_from_1, seq_S, map_app. reflexivity.
Qed.

Lemma py_range_horizon (time_horizon : Z) :
  py_range 1 (time_horizon + 1) = py_range 1 (Z.of_nat (Z.to_nat time_horizon) + 1).
Proof.
  unfold py_range. f_equal. f_equal. lia.
Qed.

Lemma column_sum_total (col : Row.t -> Q) (df : DataFrame) :
  column_sum col df == total col df.
Proof.
  unfold column_sum.
  assert (G : forall acc, fold_left Qplus (map col df) acc == acc + total col df).
  { induction df as [|r df IH]; intro acc; simpl.
    - ring.
    - rewrite IH. ring. }
  rewrite G. ring.
Qed.

(** ** The ledger in closed form: facts *)

Section Ledger.

Variables revenue_lift_amount cost_savings_amount annual_maintenance : Q.
Variables initial_investment discount_rate : Q.

Local Abbreviation cum :=
  (cum_at revenue_lift_amount cost_savings_amount annual_maintenance
     initial_investment).
Local Abbreviation row :=
  (row_at revenue_lift_amount cost_savings_amount annual_maintenance
     initial_investment discount_rate).
Local Abbreviation ledger :=
  (ledger_upto revenue_lift_amount cost_savings_amount annual_maintenance
     initial_investment discount_rate).

Lemma ledger_upto_S (n : nat) :
  ledger (S n) = ledger n ++ [row (S n)].
Proof.
  unfold ledger_upto. rewrite (seq_S (S n)), map_app. reflexivity.
Qed.

Lemma ledger_upto_length (n : nat) : length (ledger n) = S n.
Proof.
  unfold ledger_upto. now rewrite length_map, length_seq.
Qed.

Lemma ledger_upto_nth (n y : nat) :
  (y <= n)%nat -> nth_error (ledger n) y = Some (row y).
Proof.
  intro H. unfold ledger_upto.
  rewrite nth_error_map, nth_error_seq.
  destruct (Nat.ltb_spec y (S n)); [reflexivity | lia].
Qed.

Lemma ledger_upto_nth_inv (n y : nat) (r : Row.t) :
  nth_error (ledger n) y = Some r -> (y <= n)%nat /\ r = row y.
Proof.
  intro H.
  assert (L : (y < length (ledger n))%nat).
  { apply nth_error_Some. congruence. }
  rewrite ledger_upto_length in L.
  rewrite ledger_upto_nth in H by lia.
  split; [lia | congruence].
Qed.

Hypothesis discount_ok : ~ 1 + discount_rate == 0.

Lemma year_body_ok (years : list Row.t) (k : nat) :
  year_body revenue_lift_amount cost_savings_amount annual_maintenance
    discount_rate (years, cum k) (Z.of_nat (S k))
  = Ok (years ++ [row (S k)], cum (S k)).
Proof.
  unfold year_body.
  rewrite py_truediv_ok by (apply Qpower_not_0, discount_ok).
  reflexivity.
Qed.

Lemma year_loop_ok (n : nat) :
  for_each
    (year_body revenue_lift_amount cost_savings_amount annual_maintenance
       discount_rate)
    (py_range 1 (Z.of_nat n + 1)) ([row 0], cum 0)
  = Ok (ledger n, cum n).
Proof.
  induction n as [|n IH].
  - reflexivity.
  - rewrite py_range_snoc, for_each_app, IH. cbn [bind for_each].
    rewrite year_body_ok. cbn [bind]. now rewrite ledger_upto_S.
Qed.

End Ledger.

(** ** The payback search *)

Lemma first_positive_unique (df : DataFrame) (y y' : nat) :
  first_positive df y -> first_positive df y' -> y = y'.
Proof.
  intros [(r & Hr & Pr) Br] [(r' & Hr' & Pr') Br'].
  destruct (Nat.lt_trichotomy y y') as [L | [E | L]]; [exfalso | exact E | exfalso].
  - specialize (Br' _ _ L Hr). lra.
  - specialize (Br _ _ L Hr'). lra.
Qed.

Lemma crossing_denominator (prev_cf curr_cf : Q) :
  prev_cf <= 0 -> 0 < curr_cf -> 0 < curr_cf - prev_cf.
Proof. intros. lra. Qed.

Section PaybackLoop.

Variable df : DataFrame.

(** What the loop returns, from any point of the iteration on: either no
    remaining year is positive and the answer is ['N/A'], or the first
    positive year is found and the interpolation is a finite number. *)
Lemma payback_loop_spec (rows : list Row.t) :
  forall idx : nat,
    (forall i, nth_error rows i = nth_error df (idx + i)) ->
    (forall k r, (k < idx)%nat -> nth_error df k = Some r ->
                 Row.cumulative_cf r <= 0) ->
    (payback_loop df rows idx = Ok PaybackNA /\ never_positive df)
    \/ (exists y, first_positive df y /\
          ((y = O /\ payback_loop df rows idx = Ok (PaybackNum (Finite 0)))
           \/ (exists prev curr,
                 (1 <= y)%nat /\
                 nth_error df (y - 1) = Some prev /\
                 nth_error df y = Some curr /\
                 payback_loop df rows idx
                 = Ok (PaybackNum
                         (Finite (Qyear (y - 1)
                                  + Qabs (Row.cumulative_cf prev)
                                    / (Row.cumulative_cf curr
                                       - Row.cumulative_cf prev))))))).
Proof.
  induction rows as [|row rest IH]; intros idx Inv Below.
  - left. split; [reflexivity|].
    intros y r Hy.
    destruct (Nat.lt_ge_cases y idx) as [L | G]; [now apply (Below y) |].
    specialize (Inv (y - idx)%nat).
    replace (idx + (y - idx))%nat with y in Inv by lia.
    rewrite Hy in Inv. now destruct (y - idx)%nat.
  - assert (Hrow : nth_error df idx = Some row).
    { specialize (Inv O). rewrite Nat.add_0_r in Inv. now symmetry. }
    cbn [payback_loop].
    destruct (Qltb 0 (Row.cumulative_cf row)) eqn:Pos.
    + apply Qltb_true in Pos. right. exists idx. split.
      { split; [now exists row | exact Below]. }
      destruct idx as [|j]; [left; now split | right].
      cbn [Nat.eqb]. replace (S j - 1)%nat with j by lia.
      destruct (nth_error df j) as [prev|] eqn:Hprev.
      * exists prev, row. repeat split; [lia | exact Hrow |].
        unfold df_loc. rewrite Hprev. cbn [bind].
        assert (Neg : Row.cumulative_cf prev <= 0).
        { apply (Below j); [lia | exact Hprev]. }
        rewrite np_truediv_finite; [reflexivity |].
        pose proof (crossing_denominator _ _ Neg Pos). lra.
      * exfalso. apply nth_error_None in Hprev.
        assert (S j < List.length df)%nat; [|lia].
        apply nth_error_Some. congruence.
    + apply Qltb_false in Pos. apply IH.
      * intro i. replace (S idx + i)%nat with (idx + S i)%nat by lia.
        apply (Inv (S i)).
      * intros k r Hk Hr.
        destruct (Nat.eq_dec k idx) as [-> | Ne].
        -- congruence.
        -- apply (Below k); [lia | exact Hr].
Qed.

Lemma find_payback_spec :
  (payback_loop df df 0 = Ok PaybackNA /\ never_positive df)
  \/ (exists y, first_positive df y /\
        ((y = O /\ payback_loop df df 0 = Ok (PaybackNum (Finite 0)))
         \/ (exists prev curr,
               (1 <= y)%nat /\
               nth_error df (y - 1) = Some prev /\
               nth_error df y = Some curr /\
               payback_loop df df 0
               = Ok (PaybackNum
                       (Finite (Qyear (y - 1)
                                + Qabs (Row.cumulative_cf prev)
                                  / (Row.cumulative_cf curr
                                     - Row.cumulative_cf prev))))))).
Proof.
  apply payback_loop_spec; [reflexivity | intros; lia].
Qed.

Lemma find_payback_total : exists p, payback_loop df df 0 = Ok p.
Proof.
  destruct find_payback_spec
    as [[H _] | (y & _ & [[_ H] | (prev & curr & _ & _ & _ & H)])];
    eexists; exact H.
Qed.

Lemma never_positive_not_first (y : nat) :
  never_positive df -> first_positive df y -> False.
Proof.
  intros N [(r & Hr & Pr) _]. specialize (N _ _ Hr). lra.
Qed.

Lemma find_payback_never :
  never_positive df -> payback_loop df df 0 = Ok PaybackNA.
Proof.
  intro N.
  destruct find_payback_spec as [[H _] | (y & F & _)]; [exact H |].
  destruct (never_positive_not_first _ N F).
Qed.

Lemma find_payback_year0 :
  first_positive df 0 -> payback_loop df df 0 = Ok (PaybackNum (Finite 0)).
Proof.
  intro F.
  destruct find_payback_spec
    as [[_ N] | (y & F' & [[_ H] | (prev & curr & L & _)])].
  - destruct (never_positive_not_first _ N F).
  - exact H.
  - pose proof (first_positive_unique _ _ _ F F'). lia.
Qed.

Lemma find_payback_crossing (y : nat) (prev curr : Row.t) :
  (1 <= y)%nat ->
  first_positive df y ->
  nth_error df (y - 1) = Some prev ->
  nth_error df y = Some curr ->
  payback_loop df df 0
  = Ok (PaybackNum
          (Finite (Qyear (y - 1)
                   + Qabs (Row.cumulative_cf prev)
                     / (Row.cumulative_cf curr - Row.cumulative_cf prev)))).
Proof.
  intros L F Hprev Hcurr.
  destruct find_payback_spec
    as [[_ N] | (y' & F' & [[E _] | (prev' & curr' & _ & Hp & Hc & H)])].
  - destruct (never_positive_not_first _ N F).
  - pose proof (first_positive_unique _ _ _ F F'). lia.
  - pose proof (first_positive_unique _ _ _ F F') as <-.
    rewrite Hprev in Hp. rewrite Hcurr in Hc.
    injection Hp as <-. injection Hc as <-. exact H.
Qed.

End PaybackLoop.

(** ** Sums over the ledger *)

Lemma total_ext (f g : Row.t -> Q) (df : DataFrame) :
  (forall y r, nth_error df y = Some r -> f r == g r) ->
  total f df == total g df.
Proof.
  induction df as [|r df IH]; intro H; cbn [total fold_right].
  - reflexivity.
  - fold (total f df). fold (total g df).
    rewrite (H O r eq_refl), IH; [reflexivity |].
    intros y r' Hy. apply (H (S y) r' Hy).
Qed.

Lemma total_nonneg (f : Row.t -> Q) (df : DataFrame) :
  (forall y r, nth_error df y = Some r -> 0 <= f r) ->
  0 <= total f df.
Proof.
  induction df as [|r df IH]; intro H; cbn [total fold_right].
  - apply Qle_refl.
  - fold (total f df).
    pose proof (H O r eq_refl).
    assert (0 <= total f df) by (apply IH; intros y r' Hy; apply (H (S y) r' Hy)).
    lra.
Qed.

Lemma py_min_nonneg (a b : Q) : 0 <= a -> 0 <= b -> 0 <= py_min a b.
Proof.
  intros Ha Hb. unfold py_min. now destruct (Qltb b a).
Qed.

Lemma Qyear_ge_1 (k : nat) : 1 <= inject_Z (Z.of_nat (S k)).
Proof.
  change 1 with (inject_Z 1). rewrite <- Zle_Qle. lia.
Qed.

Lemma inject_Z_pred (z : Z) : inject_Z (z - 1) == inject_Z z - 1.
Proof.
  unfold Z.sub. rewrite inject_Z_plus, inject_Z_opp. reflexivity.
Qed.

(** ** The run of [calculate_financials] *)

Section Engine.

Variable template : UseCaseTemplate.
Variables initial_investment annual_maintenance_pct : Q.
Variables revenue_lift_pct cost_savings_pct discount_rate : Q.
Variables time_horizon base_volume : Z.
Variables base_value process_cost : Q.

Local Abbreviation annual_maintenance :=
  (annual_maintenance_of initial_investment annual_maintenance_pct).
Local Abbreviation revenue_lift_amount :=
  (revenue_lift_amount_of template base_volume base_value revenue_lift_pct).
Local Abbreviation cost_savings_amount :=
  (cost_savings_amount_of template base_volume process_cost cost_savings_pct).
Local Abbreviation run :=
  (calculate_financials template initial_investment annual_maintenance_pct
     revenue_lift_pct cost_savings_pct discount_rate time_horizon base_volume
     base_value process_cost).
Local Abbreviation valid :=
  (valid_input template initial_investment annual_maintenance_pct
     revenue_lift_pct cost_savings_pct discount_rate time_horizon base_volume
     base_value process_cost).
Local Abbreviation horizon := (Z.to_nat time_horizon).
Local Abbreviation ledger :=
  (ledger_upto revenue_lift_amount cost_savings_amount annual_maintenance
     initial_investment discount_rate horizon).
Local Abbreviation metrics :=
  (metrics_of initial_investment annual_maintenance_pct time_horizon).
Local Abbreviation row y :=
  (row_at revenue_lift_amount cost_savings_amount annual_maintenance
     initial_investment discount_rate y).

(** Unless [1 + discount_rate] is zero, the function returns: the ledger is
    the closed form above and the metrics are computed from it. *)
Lemma run_returns :
  ~ 1 + discount_rate == 0 ->
  exists p,
    payback_loop ledger ledger 0 = Ok p /\
    run = Ok (ledger, metrics ledger p).
Proof.
  intro Hd.
  destruct (find_payback_total ledger) as [p Hp].
  exists p. split; [exact Hp |].
  unfold calculate_financials.
  change (py_truediv ?a (py_pow ?b 0)) with (Ok (a / py_pow b 0)).
  cbn [bind app].
  rewrite py_range_horizon.
  match goal with
  | |- context [for_each ?b ?l ?s] =>
      change (for_each b l s)
        with (for_each
                (year_body revenue_lift_amount cost_savings_amount
                   annual_maintenance discount_rate)
                (py_range 1 (Z.of_nat horizon + 1))
                ([row O],
                 cum_at revenue_lift_amount cost_savings_amount
                   annual_maintenance initial_investment O))
  end.
  rewrite (year_loop_ok _ _ _ _ _ Hd). cbn [bind fst]. rewrite Hp. reflexivity.
Qed.

Lemma valid_discount : valid -> ~ 1 + discount_rate == 0.
Proof.
  intros (_ & Hd & _) E. lra.
Qed.

Lemma valid_horizon : valid -> (1 <= horizon)%nat.
Proof.
  intros (Hh & _). lia.
Qed.

(** The constraint on the discount rate is what keeps the loop from raising:
    at a rate of -1 the first discounting divides by zero. *)
Lemma run_raises_at_rate_minus_1 :
  (1 <= time_horizon)%Z ->
  1 + discount_rate == 0 ->
  run = Raise ZeroDivisionError.
Proof.
  intros Hh Hd. unfold calculate_financials.
  change (py_truediv ?a (py_pow ?b 0)) with (Ok (a / py_pow b 0)).
  cbn [bind app]. unfold py_range.
  replace (Z.to_nat (time_horizon + 1 - 1)) with (S (Z.to_nat (time_horizon - 1)))
    by lia.
  cbn [seq map for_each]. unfold year_body at 1.
  assert (E : forall n, py_truediv n (py_pow (1 + discount_rate) (1 + Z.of_nat 0))
                        = Raise ZeroDivisionError).
  { intro n. unfold py_truediv, py_pow.
    replace (Qeq_bool ((1 + discount_rate) ^ (1 + Z.of_nat 0)) 0) with true;
      [reflexivity |].
    symmetry. apply Qeq_bool_iff. exact Hd. }
  rewrite E. reflexivity.
Qed.

Lemma ledger_years :
  map Row.year ledger = map Z.of_nat (seq 0 (S horizon)).
Proof.
  unfold ledger_upto. rewrite map_map. apply map_ext.
  intros [|k]; reflexivity.
Qed.

Lemma ramp_factor_Qmin (year : Z) :
  py_min (0.6 + (inject_Z year * 0.15)) 1.0
  == Qmin (0.6 + 0.15 * inject_Z year) 1.0.
Proof.
  rewrite py_min_Qmin.
  apply Q.min_compat; [ring | reflexivity].
Qed.

(** *** The ledger *)

(** C8.  For every valid input the returned ledger has exactly
    [time_horizon + 1] records, and their year indices are, in order,
    0, 1, ..., [time_horizon]. *)
Theorem ledger_has_one_record_per_year :
  valid_input template initial_investment annual_maintenance_pct
    revenue_lift_pct cost_savings_pct discount_rate time_horizon base_volume
    base_value process_cost ->
  exists df m,
    calculate_financials template initial_investment annual_maintenance_pct
      revenue_lift_pct cost_savings_pct discount_rate time_horizon
      base_volume base_value process_cost = Ok (df, m) /\
    Z.of_nat (List.length df) = (time_horizon + 1)%Z /\
    map Row.year df = map Z.of_nat (seq 0 (Z.to_nat (time_horizon + 1))).
Proof.
  intro V.
  destruct (run_returns (valid_discount V)) as (p & _ & Hrun).
  pose proof (valid_horizon V) as Hh.
  exists ledger, (metrics ledger p).
  split; [exact Hrun | split].
  - rewrite ledger_upto_length. lia.
  - rewrite ledger_years. do 2 f_equal. lia.
Qed.

(** C1.  For every valid input and every year [y] with
    [1 <= y <= time_horizon], the record of year [y] carries the steady-state
    amounts scaled by the ramp factor [min(0.6 + 0.15*y, 1.0)] and the growth
    factor [1 + 0.03*(y-1)]; the operational benefit is their sum, the net
    cash flow is the benefit less the annual maintenance, and the discounted
    cash flow is the net cash flow over [(1 + discount_rate)^y]. *)
Theorem year_record_formulas :
  valid_input template initial_investment annual_maintenance_pct
    revenue_lift_pct cost_savings_pct discount_rate time_horizon base_volume
    base_value process_cost ->
  forall y : nat,
    (1 <= y)%nat -> (Z.of_nat y <= time_horizon)%Z ->
    exists df m r,
      calculate_financials template initial_investment annual_maintenance_pct
        revenue_lift_pct cost_savings_pct discount_rate time_horizon
        base_volume base_value process_cost = Ok (df, m) /\
      nth_error df y = Some r /\
      Row.year r = Z.of_nat y /\
      Row.revenue_lift r
      == revenue_lift_amount_of template base_volume base_value
           revenue_lift_pct
         * Qmin (0.6 + 0.15 * Qyear y) 1.0 * (1 + 0.03 * (Qyear y - 1)) /\
      Row.cost_savings r
      == cost_savings_amount_of template base_volume process_cost
           cost_savings_pct
         * Qmin (0.6 + 0.15 * Qyear y) 1.0 * (1 + 0.03 * (Qyear y - 1)) /\
      Row.operational_benefit r == Row.revenue_lift r + Row.cost_savings r /\
      Row.net_cash_flow r
      == Row.operational_benefit r
         - annual_maintenance_of initial_investment annual_maintenance_pct /\
      Row.discounted_cf r
      == Row.net_cash_flow r / (1 + discount_rate) ^ Z.of_nat y.
Proof.
  intros V y Hy1 Hy2.
  destruct (run_returns (valid_discount V)) as (p & _ & Hrun).
  exists ledger, (metrics ledger p), (row y).
  split; [exact Hrun | split].
  { apply ledger_upto_nth. lia. }
  destruct y as [|k]; [lia |].
  unfold Qyear. cbn [row_at Row.year Row.revenue_lift Row.cost_savings
                       Row.operational_benefit Row.net_cash_flow
                       Row.discounted_cf].
  repeat split; try reflexivity;
    now rewrite ramp_factor_Qmin, inject_Z_pred.
Qed.

(** The year-0 part of C2, for every input on which the function returns. *)
Lemma year0_record_fields :
  ~ 1 + discount_rate == 0 ->
  exists df m r,
    run = Ok (df, m) /\
    nth_error df 0 = Some r /\
    Row.year r = 0%Z /\
    Row.investment_cost r == initial_investment /\
    Row.maintenance_cost r == 0 /\
    Row.revenue_lift r == 0.15 * revenue_lift_amount /\
    Row.cost_savings r == 0.15 * cost_savings_amount /\
    Row.net_cash_flow r
    == 0.15 * (revenue_lift_amount + cost_savings_amount) - initial_investment /\
    Row.discounted_cf r == Row.net_cash_flow r.
Proof.
  intro Hd.
  destruct (run_returns Hd) as (p & _ & Hrun).
  exists ledger, (metrics ledger p), (row O).
  split; [exact Hrun | split; [reflexivity |]].
  cbn [row_at Row.year Row.investment_cost Row.maintenance_cost
         Row.revenue_lift Row.cost_savings Row.net_cash_flow Row.discounted_cf].
  repeat split; try reflexivity; try ring.
  unfold py_pow. rewrite Qpower_0_r. field.
Qed.

(** C6.  For every valid input the function returns, and every record of
    the ledger satisfies: the operational benefit is the revenue lift plus
    the cost savings; the net cash flow is the operational benefit less the
    investment cost and the maintenance cost; the cumulative cash flow starts
    at the net cash flow of year 0 and grows by the net cash flow of each
    year; the discounted cash flow of year [y] is the net cash flow over
    [(1 + discount_rate)^y]. *)
Theorem year_record_invariants :
  valid_input template initial_investment annual_maintenance_pct
    revenue_lift_pct cost_savings_pct discount_rate time_horizon base_volume
    base_value process_cost ->
  exists df m,
    calculate_financials template initial_investment annual_maintenance_pct
      revenue_lift_pct cost_savings_pct discount_rate time_horizon
      base_volume base_value process_cost = Ok (df, m) /\
    List.length df = S (Z.to_nat time_horizon) /\
    (forall y r,
        nth_error df y = Some r ->
        Row.operational_benefit r == Row.revenue_lift r + Row.cost_savings r /\
        Row.net_cash_flow r
        == Row.operational_benefit r - Row.investment_cost r
           - Row.maintenance_cost r /\
        Row.discounted_cf r
        == Row.net_cash_flow r / (1 + discount_rate) ^ Z.of_nat y) /\
    (forall r, nth_error df 0 = Some r ->
               Row.cumulative_cf r == Row.net_cash_flow r) /\
    (forall y prev r,
        (1 <= y)%nat ->
        nth_error df (y - 1) = Some prev ->
        nth_error df y = Some r ->
        Row.cumulative_cf r == Row.cumulative_cf prev + Row.net_cash_flow r).
Proof.
  intro V.
  destruct (run_returns (valid_discount V)) as (p & _ & Hrun).
  exists ledger, (metrics ledger p).
  split; [exact Hrun | split; [apply ledger_upto_length | split; [| split]]].
  - intros y r H. apply ledger_upto_nth_inv in H as [_ ->].
    destruct y as [|k];
      cbn [row_at Row.operational_benefit Row.revenue_lift Row.cost_savings
             Row.net_cash_flow Row.investment_cost Row.maintenance_cost
             Row.discounted_cf];
      unfold net_cf_at, py_pow; repeat split; try reflexivity; ring.
  - intros r H. apply ledger_upto_nth_inv in H as [_ ->]. reflexivity.
  - intros y prev r Hy Hprev Hr.
    apply ledger_upto_nth_inv in Hprev as [_ ->].
    apply ledger_upto_nth_inv in Hr as [_ ->].
    destruct y as [|k]; [lia |].
    replace (S k - 1)%nat with k by lia.
    destruct k; reflexivity.
Qed.

(** *** The metrics *)

Lemma amounts_nonneg :
  valid -> 0 <= revenue_lift_amount /\ 0 <= cost_savings_amount.
Proof.
  intros (_ & _ & Hv & Hval & Hpc & _ & _ & [Hr _] & [Hc _] & [Hrf _] & [Hsf _]).
  assert (0 <= inject_Z base_volume).
  { change 0 with (inject_Z 0). now rewrite <- Zle_Qle. }
  unfold revenue_lift_amount_of, cost_savings_amount_of.
  split; repeat apply Qmult_le_0_compat; assumption.
Qed.

Lemma benefits_nonneg (y : nat) :
  valid -> 0 <= Row.operational_benefit (row y).
Proof.
  intro V. destruct (amounts_nonneg V) as [Hr Hc].
  destruct y as [|k]; cbn [row_at Row.operational_benefit].
  - apply Qmult_le_0_compat; lra.
  - pose proof (Qyear_ge_1 k) as Hy.
    assert (Hramp : 0 <= py_min (0.6 + inject_Z (Z.of_nat (S k)) * 0.15) 1.0).
    { apply py_min_nonneg; lra. }
    assert (Hgrowth : 0 <= 1 + 0.03 * inject_Z (Z.of_nat (S k) - 1)).
    { rewrite inject_Z_pred. lra. }
    pose proof (Qmult_le_0_compat _ _ (Qmult_le_0_compat _ _ Hr Hramp) Hgrowth).
    pose proof (Qmult_le_0_compat _ _ (Qmult_le_0_compat _ _ Hc Hramp) Hgrowth).
    lra.
Qed.

Lemma discounted_at_rate_0 (y : nat) :
  discount_rate == 0 ->
  Row.discounted_cf (row y) == Row.net_cash_flow (row y).
Proof.
  intro Hd.
  assert (E : forall z, py_pow (1 + discount_rate) z == 1).
  { intro z. unfold py_pow. rewrite Hd, Qplus_0_r. apply Qpower_1. }
  destruct y as [|k]; cbn [row_at Row.discounted_cf Row.net_cash_flow];
    rewrite E; field.
Qed.

(** C7.  For every valid input the function returns and [npv] is the sum of
    the discounted cash flows of all the years of the ledger; when the
    discount rate is 0, [npv] is the sum of the undiscounted net cash
    flows. *)
Theorem npv_is_sum_of_discounted_cash_flows :
  valid_input template initial_investment annual_maintenance_pct
    revenue_lift_pct cost_savings_pct discount_rate time_horizon base_volume
    base_value process_cost ->
  exists df m,
    calculate_financials template initial_investment annual_maintenance_pct
      revenue_lift_pct cost_savings_pct discount_rate time_horizon
      base_volume base_value process_cost = Ok (df, m) /\
    List.length df = S (Z.to_nat time_horizon) /\
    Metrics.npv m == total Row.discounted_cf df /\
    (discount_rate == 0 -> Metrics.npv m == total Row.net_cash_flow df).
Proof.
  intro V.
  destruct (run_returns (valid_discount V)) as (p & _ & Hrun).
  exists ledger, (metrics ledger p).
  split; [exact Hrun | split; [apply ledger_upto_length | split]];
    cbn [metrics_of Metrics.npv].
  - apply column_sum_total.
  - intro Hd. rewrite column_sum_total. apply total_ext.
    intros y r Hr. apply ledger_upto_nth_inv in Hr as [_ ->].
    now apply discounted_at_rate_0.
Qed.

(** C4.  For every valid input the function returns (it raises nothing),
    [total_benefits] is the sum of the operational benefits of all years,
    [total_costs] is [initial_investment + annual_maintenance * time_horizon],
    and [roi] is [(total_benefits - total_costs) / total_costs * 100]
    whenever [total_costs] is not zero.  When [total_costs] is zero the
    division is one of numpy scalars: [roi] is then plus infinity if there
    is any benefit, and NaN if there is none. *)
Theorem totals_and_roi :
  valid_input template initial_investment annual_maintenance_pct
    revenue_lift_pct cost_savings_pct discount_rate time_horizon base_volume
    base_value process_cost ->
  exists df m,
    calculate_financials template initial_investment annual_maintenance_pct
      revenue_lift_pct cost_savings_pct discount_rate time_horizon
      base_volume base_value process_cost = Ok (df, m) /\
    List.length df = S (Z.to_nat time_horizon) /\
    Metrics.total_benefits m == total Row.operational_benefit df /\
    Metrics.total_costs m
    == initial_investment
       + annual_maintenance_of initial_investment annual_maintenance_pct
         * inject_Z time_horizon /\
    (~ Metrics.total_costs m == 0 ->
     exists q,
       Metrics.roi m = Finite q /\
       q == (Metrics.total_benefits m - Metrics.total_costs m)
            / Metrics.total_costs m * 100) /\
    (Metrics.total_costs m == 0 ->
     (0 < Metrics.total_benefits m /\ Metrics.roi m = PosInf)
     \/ (Metrics.total_benefits m == 0 /\ Metrics.roi m = NaN)).
Proof.
  intro V.
  destruct (run_returns (valid_discount V)) as (p & _ & Hrun).
  exists ledger, (metrics ledger p).
  split; [exact Hrun | split; [apply ledger_upto_length |]].
  cbn [metrics_of Metrics.total_benefits Metrics.total_costs Metrics.roi].
  split; [apply column_sum_total | split; [reflexivity | split]].
  - intro Hc. eexists. split; [| reflexivity].
    now rewrite np_truediv_finite.
  - intro Hc.
    assert (Hb : 0 <= column_sum Row.operational_benefit ledger).
    { rewrite column_sum_total. apply total_nonneg.
      intros y r Hr. apply ledger_upto_nth_inv in Hr as [_ ->].
      now apply benefits_nonneg. }
    unfold np_truediv.
    apply Qeq_bool_iff in Hc as Hz. rewrite Hz.
    destruct (Qltb 0 _) eqn:Pos.
    + left. apply Qltb_true in Pos. split; [lra | reflexivity].
    + apply Qltb_false in Pos.
      destruct (Qltb _ 0) eqn:Neg.
      * apply Qltb_true in Neg. lra.
      * right. split; [lra | reflexivity].
Qed.

(** The payback metric, by cases on the first year with a positive
    cumulative cash flow. *)
Lemma payback_cases :
  ~ 1 + discount_rate == 0 ->
  exists df m,
    run = Ok (df, m) /\
    (never_positive df \/ exists y, first_positive df y) /\
    (first_positive df 0 -> Metrics.payback m = PaybackNum (Finite 0)) /\
    (forall y prev curr,
        (1 <= y)%nat ->
        first_positive df y ->
        nth_error df (y - 1) = Some prev ->
        nth_error df y = Some curr ->
        Metrics.payback m
        = PaybackNum
            (Finite (Qyear (y - 1)
                     + Qabs (Row.cumulative_cf prev)
                       / (Row.cumulative_cf curr - Row.cumulative_cf prev)))) /\
    (never_positive df -> Metrics.payback m = PaybackNA).
Proof.
  intro Hd.
  destruct (run_returns Hd) as (p & Hp & Hrun).
  exists ledger, (metrics ledger p).
  split; [exact Hrun |].
  cbn [metrics_of Metrics.payback].
  assert (Inj : forall p', payback_loop ledger ledger 0 = Ok p' -> p = p').
  { intros p' H. rewrite Hp in H. now injection H. }
  split; [| split; [| split]].
  - destruct (find_payback_spec ledger) as [[_ N] | (y & F & _)];
      [now left | right; now exists y].
  - intro F. apply Inj. now apply find_payback_year0.
  - intros y prev curr Hy F Hprev Hcurr. apply Inj.
    now apply find_payback_crossing.
  - intro N. apply Inj. now apply find_payback_never.
Qed.

End Engine.

(** ** The payback period *)

(** C3.  For every valid input the payback metric is decided by the first
    year [y] whose cumulative cash flow is positive: it is 0 when [y = 0]; it
    is [(y-1) + |cumulative[y-1]| / (cumulative[y] - cumulative[y-1])] when
    [y >= 1]; and it is the non-numeric ['N/A'] when no year of the ledger has
    a positive cumulative cash flow.  In particular a cumulative cash flow
    that crosses from -100 at year 2 to +50 at year 3 gives
    [2 + 100/150]. *)
Theorem payback_period :
  (forall (template : UseCaseTemplate)
          (initial_investment annual_maintenance_pct revenue_lift_pct
             cost_savings_pct discount_rate : Q)
          (time_horizon base_volume : Z) (base_value process_cost : Q),
      valid_input template initial_investment annual_maintenance_pct
        revenue_lift_pct cost_savings_pct discount_rate time_horizon
        base_volume base_value process_cost ->
      exists df m,
        calculate_financials template initial_investment annual_maintenance_pct
          revenue_lift_pct cost_savings_pct discount_rate time_horizon
          base_volume base_value process_cost = Ok (df, m) /\
        (never_positive df \/ exists y, first_positive df y) /\
        (first_positive df 0 -> Metrics.payback m = PaybackNum (Finite 0)) /\
        (forall y prev curr,
            (1 <= y)%nat ->
            first_positive df y ->
            nth_error df (y - 1) = Some prev ->
            nth_error df y = Some curr ->
            Metrics.payback m
            = PaybackNum
                (Finite (Qyear (y - 1)
                         + Qabs (Row.cumulative_cf prev)
                           / (Row.cumulative_cf curr - Row.cumulative_cf prev)))) /\
        (never_positive df -> Metrics.payback m = PaybackNA))
  /\
  (forall (df : DataFrame) (r2 r3 : Row.t),
      first_positive df 3 ->
      nth_error df 2 = Some r2 ->
      nth_error df 3 = Some r3 ->
      Row.cumulative_cf r2 == -100 ->
      Row.cumulative_cf r3 == 50 ->
      exists p, payback_loop df df 0 = Ok p /\ payback_is p (2 + 100 / 150)).
Proof.
  split.
  - intros. apply payback_cases. eapply valid_discount; eassumption.
  - intros df r2 r3 F H2 H3 E2 E3.
    eexists. split.
    + apply (find_payback_crossing df 3 r2 r3); [lia | exact F | exact H2 | exact H3].
    + cbn [payback_is]. rewrite E2, E3. reflexivity.
Qed.

(** C10.  The interpolation never divides by zero: when the first year [y]
    with a positive cumulative cash flow is not year 0, the cumulative cash
    flow of year [y-1] is not positive, so the denominator
    [cumulative[y] - cumulative[y-1]] is positive, the division yields a
    finite number and the search returns it.  Whatever the ledger, the search
    returns ['N/A'] or a finite number, and raises nothing. *)
Theorem payback_division_is_defined :
  forall df : DataFrame,
    (forall (y : nat) (prev curr : Row.t),
        (1 <= y)%nat ->
        first_positive df y ->
        nth_error df (y - 1) = Some prev ->
        nth_error df y = Some curr ->
        Row.cumulative_cf prev <= 0 /\
        0 < Row.cumulative_cf curr - Row.cumulative_cf prev /\
        np_truediv (Qabs (Row.cumulative_cf prev))
          (Row.cumulative_cf curr - Row.cumulative_cf prev)
        = Finite (Qabs (Row.cumulative_cf prev)
                  / (Row.cumulative_cf curr - Row.cumulative_cf prev)) /\
        payback_loop df df 0
        = Ok (PaybackNum
                (Finite (Qyear (y - 1)
                         + Qabs (Row.cumulative_cf prev)
                           / (Row.cumulative_cf curr - Row.cumulative_cf prev)))))
    /\
    (exists p,
        payback_loop df df 0 = Ok p /\
        (p = PaybackNA \/ exists q, p = PaybackNum (Finite q))).
Proof.
  intro df. split.
  - intros y prev curr Hy F Hprev Hcurr.
    assert (Neg : Row.cumulative_cf prev <= 0).
    { destruct F as [_ Below]. apply (Below (y - 1)%nat); [lia | exact Hprev]. }
    assert (Pos : 0 < Row.cumulative_cf curr).
    { destruct F as [(r & Hr & Pr) _]. rewrite Hcurr in Hr. now injection Hr as <-. }
    pose proof (crossing_denominator _ _ Neg Pos) as Den.
    repeat split.
    + exact Neg.
    + exact Den.
    + apply np_truediv_finite. lra.
    + now apply find_payback_crossing.
  - destruct (find_payback_spec df)
      as [[H _] | (y & _ & [[_ H] | (prev & curr & _ & _ & _ & H)])];
      eexists; (split; [exact H |]); [now left | right | right]; eexists; reflexivity.
Qed.

(** ** Year 0 *)

(** C2.  For every valid input the year-0 record charges the whole initial
    investment and no maintenance, realises 15% of each steady-state amount,
    and its discounted cash flow is its net cash flow.  In particular the
    order-management scenario of the specification has the year-0 net cash
    flow [0.15*(50000*2500*0.65*0.18 + 50000*85*0.35*0.25) - 500000]. *)
Theorem year0_record :
  (forall (template : UseCaseTemplate)
          (initial_investment annual_maintenance_pct revenue_lift_pct
             cost_savings_pct discount_rate : Q)
          (time_horizon base_volume : Z) (base_value process_cost : Q),
      valid_input template initial_investment annual_maintenance_pct
        revenue_lift_pct cost_savings_pct discount_rate time_horizon
        base_volume base_value process_cost ->
      exists df m r,
        calculate_financials template initial_investment annual_maintenance_pct
          revenue_lift_pct cost_savings_pct discount_rate time_horizon
          base_volume base_value process_cost = Ok (df, m) /\
        nth_error df 0 = Some r /\
        Row.year r = 0%Z /\
        Row.investment_cost r == initial_investment /\
        Row.maintenance_cost r == 0 /\
        Row.revenue_lift r
        == 0.15 * revenue_lift_amount_of template base_volume base_value
                    revenue_lift_pct /\
        Row.cost_savings r
        == 0.15 * cost_savings_amount_of template base_volume process_cost
                    cost_savings_pct /\
        Row.net_cash_flow r
        == 0.15 * (revenue_lift_amount_of template base_volume base_value
                     revenue_lift_pct
                   + cost_savings_amount_of template base_volume process_cost
                       cost_savings_pct)
           - initial_investment /\
        Row.discounted_cf r == Row.net_cash_flow r)
  /\
  (exists df m r,
      calculate_financials order_management 500000 0.20 0.18 0.25 0.08 5
        50000 2500 85 = Ok (df, m) /\
      nth_error df 0 = Some r /\
      Row.net_cash_flow r
      == 0.15 * (50000 * 2500 * 0.65 * 0.18 + 50000 * 85 * 0.35 * 0.25) - 500000).
Proof.
  split.
  - intros. apply year0_record_fields. eapply valid_discount; eassumption.
  - destruct (year0_record_fields order_management 500000 0.20 0.18 0.25 0.08 5
                50000 2500 85)
      as (df & m & r & Hrun & Hr & _ & _ & _ & _ & _ & Hnet & _).
    { intro E. vm_compute in E. discriminate E. }
    exists df, m, r. split; [exact Hrun | split; [exact Hr |]].
    rewrite Hnet. reflexivity.
Qed.

(** ** A horizon of zero years *)

(** C5, as the code behaves.  With [time_horizon = 0] the function validates
    nothing and raises nothing, whatever the other arguments: the loop over
    [range(1, 1)] is empty and the ledger returned has the year-0 record
    alone, with [total_costs] equal to the initial investment. *)
Theorem zero_horizon_returns_year0_only :
  forall (template : UseCaseTemplate)
         (initial_investment annual_maintenance_pct revenue_lift_pct
            cost_savings_pct discount_rate : Q)
         (base_volume : Z) (base_value process_cost : Q),
  exists r m,
    calculate_financials template initial_investment annual_maintenance_pct
      revenue_lift_pct cost_savings_pct discount_rate 0 base_volume base_value
      process_cost = Ok ([r], m) /\
    Row.year r = 0%Z /\
    Metrics.total_costs m == initial_investment.
Proof.
  intros. unfold calculate_financials.
  change (py_truediv ?a (py_pow ?b 0)) with (Ok (a / py_pow b 0)).
  change (py_range 1 (0 + 1)) with (@nil Z).
  cbn [bind app for_each fst payback_loop Row.cumulative_cf Nat.eqb].
  destruct (Qltb 0 _); cbn [bind];
    (eexists; eexists; split; [reflexivity | split; [reflexivity |]]);
    cbn [Metrics.total_costs]; ring.
Qed.

(** C5 as stated fails: on the order-management scenario with a horizon of
    0 the function raises no error and returns a ledger of one row. *)
Lemma zero_horizon_is_not_rejected :
  (forall e : exn,
      calculate_financials order_management 500000 0.20 0.18 0.25 0.08 0
        50000 2500 85 <> Raise e) /\
  (exists df m,
      calculate_financials order_management 500000 0.20 0.18 0.25 0.08 0
        50000 2500 85 = Ok (df, m) /\
      List.length df = 1%nat /\
      map Row.year df = [0%Z]).
Proof.
  split.
  - intros e E. vm_compute in E. discriminate E.
  - eexists. eexists. split; [vm_compute; reflexivity |].
    split; reflexivity.
Qed.

(** ** The claims on concrete scenarios *)

(** Discharges [valid_input] on concrete arguments. *)
Ltac check_valid_input :=
  unfold valid_input; cbn;
  repeat split; first [ lia | lra ].

Lemma year_record_formulas_order_management :
  valid_input order_management 500000 0.20 0.18 0.25 0.08 5 50000 2500 85 /\
  exists df m r,
    calculate_financials order_management 500000 0.20 0.18 0.25 0.08 5
      50000 2500 85 = Ok (df, m) /\
    nth_error df 3 = Some r /\
    Row.year r = 3%Z /\
    Row.revenue_lift r
    == revenue_lift_amount_of order_management 50000 2500 0.18
       * Qmin (0.6 + 0.15 * Qyear 3) 1.0 * (1 + 0.03 * (Qyear 3 - 1)) /\
    Row.cost_savings r
    == cost_savings_amount_of order_management 50000 85 0.25
       * Qmin (0.6 + 0.15 * Qyear 3) 1.0 * (1 + 0.03 * (Qyear 3 - 1)) /\
    Row.operational_benefit r == Row.revenue_lift r + Row.cost_savings r /\
    Row.net_cash_flow r
    == Row.operational_benefit r - annual_maintenance_of 500000 0.20 /\
    Row.discounted_cf r == Row.net_cash_flow r / (1 + 0.08) ^ Z.of_nat 3.
Proof.
  split; [check_valid_input |].
  apply (year_record_formulas order_management 500000 0.20 0.18 0.25 0.08 5
           50000 2500 85); [check_valid_input | lia | lia].
Defined.

Lemma year0_record_order_management :
  valid_input order_management 500000 0.20 0.18 0.25 0.08 5 50000 2500 85 /\
  exists df m r,
    calculate_financials order_management 500000 0.20 0.18 0.25 0.08 5
      50000 2500 85 = Ok (df, m) /\
    nth_error df 0 = Some r /\
    Row.year r = 0%Z /\
    Row.investment_cost r == 500000 /\
    Row.maintenance_cost r == 0 /\
    Row.revenue_lift r == 0.15 * (50000 * 2500 * 0.65 * 0.18) /\
    Row.cost_savings r == 0.15 * (50000 * 85 * 0.35 * 0.25) /\
    Row.net_cash_flow r
    == 0.15 * (50000 * 2500 * 0.65 * 0.18 + 50000 * 85 * 0.35 * 0.25) - 500000 /\
    Row.discounted_cf r == Row.net_cash_flow r.
Proof.
  split; [check_valid_input |].
  apply (proj1 year0_record order_management 500000 0.20 0.18 0.25 0.08 5%Z
           50000%Z 2500 85).
  check_valid_input.
Defined.

Lemma payback_period_crossing_scenario :
  valid_input order_management (38005 # 106) 0 1 0 0.08 3 1 (150000 # 689) 85 /\
  exists df m r2 r3,
    calculate_financials order_management (38005 # 106) 0 1 0 0.08 3 1
      (150000 # 689) 85 = Ok (df, m) /\
    nth_error df 2 = Some r2 /\
    nth_error df 3 = Some r3 /\
    Row.cumulative_cf r2 == -100 /\
    Row.cumulative_cf r3 == 50 /\
    payback_is (Metrics.payback m) (2 + 100 / 150).
Proof.
  split; [check_valid_input |].
  destruct (proj1 payback_period order_management (38005 # 106) 0 1 0 0.08
              3%Z 1%Z (150000 # 689) 85)
    as (df & m & Hrun & _ & _ & Hcross & _); [check_valid_input |].
  vm_compute in Hrun. injection Hrun as Hdf Hm.
  assert (F : first_positive df 3).
  { subst df. split.
    - eexists. split; [reflexivity | reflexivity].
    - intros k r Hk Hr.
      destruct k as [|[|[|k]]]; [| | | lia];
        injection Hr as <-; vm_compute; discriminate. }
  exists df, m.
  assert (H2 : exists r2, nth_error df 2 = Some r2 /\ Row.cumulative_cf r2 == -100).
  { subst df. eexists. split; reflexivity. }
  assert (H3 : exists r3, nth_error df 3 = Some r3 /\ Row.cumulative_cf r3 == 50).
  { subst df. eexists. split; reflexivity. }
  destruct H2 as (r2 & H2 & E2). destruct H3 as (r3 & H3 & E3).
  exists r2, r3.
  repeat split; try assumption.
  - now rewrite <- Hdf, <- Hm.
  - rewrite (Hcross 3%nat r2 r3); [| lia | exact F | exact H2 | exact H3].
    cbn [payback_is]. rewrite E2, E3. reflexivity.
Defined.

Lemma totals_and_roi_without_investment :
  valid_input order_management 0 0.20 0.18 0.25 0.08 3 50000 2500 85 /\
  exists df m,
    calculate_financials order_management 0 0.20 0.18 0.25 0.08 3
      50000 2500 85 = Ok (df, m) /\
    Metrics.total_benefits m == total Row.operational_benefit df /\
    Metrics.total_costs m == 0 /\
    Metrics.roi m = PosInf.
Proof.
  split; [check_valid_input |].
  destruct (totals_and_roi order_management 0 0.20 0.18 0.25 0.08 3
              50000 2500 85)
    as (df & m & Hrun & _ & Hb & Hc & _ & Hzero); [check_valid_input |].
  exists df, m.
  assert (Hc0 : Metrics.total_costs m == 0).
  { rewrite Hc. reflexivity. }
  repeat split; try assumption.
  destruct (Hzero Hc0) as [[_ Hroi] | [Hb0 _]]; [exact Hroi | exfalso].
  vm_compute in Hrun. injection Hrun as _ Hm. subst m.
  vm_compute in Hb0. discriminate Hb0.
Defined.

Lemma year_record_invariants_order_management :
  valid_input order_management 500000 0.20 0.18 0.25 0.08 5 50000 2500 85 /\
  exists df m,
    calculate_financials order_management 500000 0.20 0.18 0.25 0.08 5
      50000 2500 85 = Ok (df, m) /\
    List.length df = 6%nat /\
    (forall y r,
        nth_error df y = Some r ->
        Row.operational_benefit r == Row.revenue_lift r + Row.cost_savings r /\
        Row.net_cash_flow r
        == Row.operational_benefit r - Row.investment_cost r
           - Row.maintenance_cost r /\
        Row.discounted_cf r == Row.net_cash_flow r / (1 + 0.08) ^ Z.of_nat y) /\
    (forall r, nth_error df 0 = Some r ->
               Row.cumulative_cf r == Row.net_cash_flow r) /\
    (forall y prev r,
        (1 <= y)%nat ->
        nth_error df (y - 1) = Some prev ->
        nth_error df y = Some r ->
        Row.cumulative_cf r == Row.cumulative_cf prev + Row.net_cash_flow r).
Proof.
  split; [check_valid_input |].
  apply (year_record_invariants order_management 500000 0.20 0.18 0.25 0.08 5
           50000 2500 85).
  check_valid_input.
Defined.

Lemma npv_without_discounting :
  valid_input order_management 500000 0.20 0.18 0.25 0 5 50000 2500 85 /\
  exists df m,
    calculate_financials order_management 500000 0.20 0.18 0.25 0 5
      50000 2500 85 = Ok (df, m) /\
    List.length df = 6%nat /\
    Metrics.npv m == total Row.discounted_cf df /\
    Metrics.npv m == total Row.net_cash_flow df.
Proof.
  split; [check_valid_input |].
  destruct (npv_is_sum_of_discounted_cash_flows order_management 500000 0.20
              0.18 0.25 0 5 50000 2500 85)
    as (df & m & Hrun & Hlen & Hnpv & Hzero); [check_valid_input |].
  exists df, m. repeat split; try assumption.
  apply Hzero. reflexivity.
Defined.

Lemma ledger_of_five_year_horizon :
  valid_input order_management 500000 0.20 0.18 0.25 0.08 5 50000 2500 85 /\
  exists df m,
    calculate_financials order_management 500000 0.20 0.18 0.25 0.08 5
      50000 2500 85 = Ok (df, m) /\
    Z.of_nat (List.length df) = 6%Z /\
    map Row.year df = [0; 1; 2; 3; 4; 5]%Z.
Proof.
  split; [check_valid_input |].
  apply (ledger_has_one_record_per_year order_management 500000 0.20 0.18 0.25
           0.08 5 50000 2500 85).
  check_valid_input.
Defined.

Lemma payback_division_large_investment :
  exists df m prev curr,
    calculate_financials order_management 5000000 0.20 0.18 0.25 0.08 3
      50000 2500 85 = Ok (df, m) /\
    first_positive df 1 /\
    nth_error df 0 = Some prev /\
    nth_error df 1 = Some curr /\
    Row.cumulative_cf prev <= 0 /\
    0 < Row.cumulative_cf curr - Row.cumulative_cf prev /\
    payback_loop df df 0
    = Ok (PaybackNum
            (Finite (Qyear 0
                     + Qabs (Row.cumulative_cf prev)
                       / (Row.cumulative_cf curr - Row.cumulative_cf prev)))).
Proof.
  eexists. eexists. eexists. eexists.
  split; [vm_compute; reflexivity |].
  match goal with
  | |- first_positive ?df 1 /\ _ =>
      assert (F : first_positive df 1)
  end.
  { split.
    - eexists. split; [reflexivity | reflexivity].
    - intros k r Hk Hr. destruct k as [|k]; [| lia].
      injection Hr as <-. vm_compute. discriminate. }
  split; [exact F |].
  split; [reflexivity |].
  split; [reflexivity |].
  match goal with
  | |- Row.cumulative_cf ?prev <= 0 /\ _ =>
      match type of F with
      | first_positive ?df _ =>
          destruct (proj1 (payback_division_is_defined df) 1%nat prev
                      (nth 1 df prev))
            as (Neg & Den & _ & Hloop);
            [lia | exact F | reflexivity | reflexivity |]
      end
  end.
  split; [exact Neg | split; [exact Den | exact Hloop]].
Defined.

(** * Further properties of the projection *)

Lemma total_app (f : Row.t -> Q) (df df' : DataFrame) :
  total f (df ++ df') == total f df + total f df'.
Proof.
  unfold total. induction df as [|r df IH]; cbn [app fold_right].
  - ring.
  - rewrite IH. ring.
Qed.

Lemma firstn_seq_prefix (k : nat) :
  forall a n, (k <= n)%nat -> firstn k (seq a n) = seq a k.
Proof.
  induction k as [|k IH]; intros a n H; [reflexivity |].
  destruct n as [|n]; [lia |].
  cbn [seq firstn]. f_equal. apply IH. lia.
Qed.

Lemma firstn_ledger_upto (rla csa am ii d : Q) (n y : nat) :
  (y <= n)%nat ->
  firstn (S y) (ledger_upto rla csa am ii d n) = ledger_upto rla csa am ii d y.
Proof.
  intro H. unfold ledger_upto.
  rewrite firstn_map, firstn_seq_prefix by lia. reflexivity.
Qed.

Lemma total_net_ledger_upto (rla csa am ii d : Q) (y : nat) :
  total Row.net_cash_flow (ledger_upto rla csa am ii d y)
  == cum_at rla csa am ii y.
Proof.
  induction y as [|y IH].
  - cbn. ring.
  - rewrite ledger_upto_S, total_app, IH. cbn. ring.
Qed.

Section Projection.

Variable template : UseCaseTemplate.
Variables initial_investment annual_maintenance_pct : Q.
Variables revenue_lift_pct cost_savings_pct discount_rate : Q.
Variables time_horizon base_volume : Z.
Variables base_value process_cost : Q.

Local Abbreviation annual_maintenance :=
  (annual_maintenance_of initial_investment annual_maintenance_pct).
Local Abbreviation revenue_lift_amount :=
  (revenue_lift_amount_of template base_volume base_value revenue_lift_pct).
Local Abbreviation cost_savings_amount :=
  (cost_savings_amount_of template base_volume process_cost cost_savings_pct).
Local Abbreviation run :=
  (calculate_financials template initial_investment annual_maintenance_pct
     revenue_lift_pct cost_savings_pct discount_rate time_horizon base_volume
     base_value process_cost).
Local Abbreviation valid :=
  (valid_input template initial_investment annual_maintenance_pct
     revenue_lift_pct cost_savings_pct discount_rate time_horizon base_volume
     base_value process_cost).
Local Abbreviation horizon := (Z.to_nat time_horizon).
Local Abbreviation ledger :=
  (ledger_upto revenue_lift_amount cost_savings_amount annual_maintenance
     initial_investment discount_rate horizon).
Local Abbreviation metrics :=
  (metrics_of initial_investment annual_maintenance_pct time_horizon).
Local Abbreviation row y :=
  (row_at revenue_lift_amount cost_savings_amount annual_maintenance
     initial_investment discount_rate y).
Local Abbreviation cum y :=
  (cum_at revenue_lift_amount cost_savings_amount annual_maintenance
     initial_investment y).
Local Abbreviation net year :=
  (net_cf_at revenue_lift_amount cost_savings_amount annual_maintenance year).

(** With no year to loop over nothing is discounted by a power of
    [1 + discount_rate], and the function returns whatever the rate. *)
Lemma run_returns_without_years :
  (time_horizon <= 0)%Z ->
  exists p,
    payback_loop ledger ledger 0 = Ok p /\
    run = Ok (ledger, metrics ledger p).
Proof.
  intro Hh.
  destruct (find_payback_total ledger) as [p Hp].
  exists p. split; [exact Hp |].
  revert Hp. replace horizon with O by lia. intro Hp.
  unfold calculate_financials.
  change (py_truediv ?a (py_pow ?b 0)) with (Ok (a / py_pow b 0)).
  unfold py_range. replace (Z.to_nat (time_horizon + 1 - 1)) with O by lia.
  cbn [seq map for_each bind app fst].
  change (payback_loop ?l ?l 0) with (payback_loop (ledger_upto
    revenue_lift_amount cost_savings_amount annual_maintenance
    initial_investment discount_rate 0) (ledger_upto
    revenue_lift_amount cost_savings_amount annual_maintenance
    initial_investment discount_rate 0) 0).
  rewrite Hp. reflexivity.
Qed.

(** Whenever the function returns, it returns the closed-form ledger. *)
Lemma run_inversion (df : DataFrame) (m : Metrics.t) :
  run = Ok (df, m) ->
  df = ledger /\
  exists p, payback_loop ledger ledger 0 = Ok p /\ m = metrics ledger p.
Proof.
  intro Hrun.
  assert (R : exists p, payback_loop ledger ledger 0 = Ok p /\
                        run = Ok (ledger, metrics ledger p)).
  { destruct (Z_le_gt_dec time_horizon 0) as [Hh | Hh].
    - now apply run_returns_without_years.
    - destruct (Qeq_dec (1 + discount_rate) 0) as [Hd | Hd].
      + rewrite run_raises_at_rate_minus_1 in Hrun by (lia || exact Hd).
        discriminate Hrun.
      + now apply run_returns. }
  destruct R as (p & Hp & Hrun').
  rewrite Hrun in Hrun'. injection Hrun' as -> ->.
  split; [reflexivity | now exists p].
Qed.

Lemma row_cumulative (y : nat) : Row.cumulative_cf (row y) = cum y.
Proof. destruct y; reflexivity. Qed.

(** X1.  Whenever the function returns, the cumulative cash flow of every
    year is the sum of the net cash flows of the years up to it; the last
    cumulative cash flow is the sum of all the net cash flows. *)
Theorem cumulative_is_running_total :
  forall (df : DataFrame) (m : Metrics.t),
    calculate_financials template initial_investment annual_maintenance_pct
      revenue_lift_pct cost_savings_pct discount_rate time_horizon
      base_volume base_value process_cost = Ok (df, m) ->
    (forall y r,
        nth_error df y = Some r ->
        Row.cumulative_cf r == total Row.net_cash_flow (firstn (S y) df)) /\
    (forall r,
        nth_error df (List.length df - 1) = Some r ->
        Row.cumulative_cf r == total Row.net_cash_flow df).
Proof.
  intros df m Hrun.
  apply run_inversion in Hrun as [-> _].
  assert (G : forall y r,
             nth_error ledger y = Some r ->
             Row.cumulative_cf r
             == total Row.net_cash_flow (firstn (S y) ledger)).
  { intros y r Hr. apply ledger_upto_nth_inv in Hr as [Hy ->].
    rewrite firstn_ledger_upto by exact Hy.
    rewrite total_net_ledger_upto, row_cumulative. reflexivity. }
  split; [exact G |].
  intros r Hr. rewrite (G _ _ Hr).
  rewrite firstn_all2; [reflexivity |].
  rewrite ledger_upto_length. lia.
Qed.

Lemma ramp_factor_full (year : Z) :
  (3 <= year)%Z -> py_min (0.6 + (inject_Z year * 0.15)) 1.0 == 1.
Proof.
  intro H.
  assert (Hq : 3 <= inject_Z year).
  { change 3 with (inject_Z 3). now rewrite <- Zle_Qle. }
  unfold py_min.
  destruct (Qltb 1.0 (0.6 + inject_Z year * 0.15)) eqn:E; [reflexivity |].
  apply Qltb_false in E. lra.
Qed.

Lemma ramp_factor_year_1 : py_min (0.6 + (inject_Z 1 * 0.15)) 1.0 == 0.75.
Proof. reflexivity. Qed.

Lemma ramp_factor_year_2 : py_min (0.6 + (inject_Z 2 * 0.15)) 1.0 == 0.9.
Proof. reflexivity. Qed.

(** X3.  The adoption ramp: whenever the function returns, the operational
    benefit is 75% of the steady-state amounts in year 1, 90% of them grown by
    3% in year 2, and from year 3 on the whole of them, grown by 3% of the
    base per year elapsed since year 1. *)
Theorem full_benefit_from_year_3 :
  forall (df : DataFrame) (m : Metrics.t),
    calculate_financials template initial_investment annual_maintenance_pct
      revenue_lift_pct cost_savings_pct discount_rate time_horizon
      base_volume base_value process_cost = Ok (df, m) ->
    forall y r,
      nth_error df y = Some r ->
      (y = 1%nat ->
       Row.operational_benefit r
       == 0.75 * (revenue_lift_amount_of template base_volume base_value
                    revenue_lift_pct
                  + cost_savings_amount_of template base_volume process_cost
                      cost_savings_pct)) /\
      (y = 2%nat ->
       Row.operational_benefit r
       == 0.9 * 1.03
          * (revenue_lift_amount_of template base_volume base_value
               revenue_lift_pct
             + cost_savings_amount_of template base_volume process_cost
                 cost_savings_pct)) /\
      ((3 <= y)%nat ->
       Row.operational_benefit r
       == (1 + 0.03 * (Qyear y - 1))
          * (revenue_lift_amount_of template base_volume base_value
               revenue_lift_pct
             + cost_savings_amount_of template base_volume process_cost
                 cost_savings_pct)).
Proof.
  intros df m Hrun y r Hr.
  apply run_inversion in Hrun as [-> _].
  apply ledger_upto_nth_inv in Hr as [_ ->].
  repeat split.
  - intros ->. cbn [row_at Row.operational_benefit].
    change (Z.of_nat 1) with 1%Z. rewrite ramp_factor_year_1.
    change (inject_Z (1 - 1)) with 0. ring.
  - intros ->. cbn [row_at Row.operational_benefit].
    change (Z.of_nat 2) with 2%Z. rewrite ramp_factor_year_2.
    change (inject_Z (2 - 1)) with 1. ring.
  - intro Hy. destruct y as [|k]; [lia |].
    cbn [row_at Row.operational_benefit].
    rewrite ramp_factor_full by lia.
    unfold Qyear. rewrite inject_Z_pred. ring.
Qed.

(** *** How the benefits evolve *)

Lemma ramp_factor_mono (z z' : Z) :
  (z <= z')%Z ->
  py_min (0.6 + (inject_Z z * 0.15)) 1.0
  <= py_min (0.6 + (inject_Z z' * 0.15)) 1.0.
Proof.
  intro H. rewrite Zle_Qle in H. unfold py_min.
  destruct (Qltb 1.0 (0.6 + inject_Z z * 0.15)) eqn:E;
    [apply Qltb_true in E | apply Qltb_false in E];
    (destruct (Qltb 1.0 (0.6 + inject_Z z' * 0.15)) eqn:E';
     [apply Qltb_true in E' | apply Qltb_false in E']); lra.
Qed.

Lemma ramp_factor_nonneg (k : nat) :
  0 <= py_min (0.6 + (inject_Z (Z.of_nat (S k)) * 0.15)) 1.0.
Proof.
  pose proof (Qyear_ge_1 k). apply py_min_nonneg; lra.
Qed.

Lemma growth_factor_ge_1 (k : nat) :
  1 <= 1 + 0.03 * inject_Z (Z.of_nat (S k) - 1).
Proof.
  pose proof (Qyear_ge_1 k). rewrite inject_Z_pred. lra.
Qed.

Lemma growth_factor_mono (z z' : Z) :
  (z <= z')%Z ->
  1 + 0.03 * inject_Z (z - 1) <= 1 + 0.03 * inject_Z (z' - 1).
Proof.
  intro H. rewrite Zle_Qle in H. rewrite !inject_Z_pred. lra.
Qed.

Lemma Qmult_le_mono_nonneg (a a' b b' : Q) :
  0 <= a -> a <= a' -> 0 <= b -> b <= b' -> a * b <= a' * b'.
Proof.
  intros Ha Haa Hb Hbb.
  apply Qle_trans with (a' * b).
  - apply Qmult_le_compat_r; assumption.
  - rewrite (Qmult_comm a' b), (Qmult_comm a' b').
    apply Qmult_le_compat_r; [assumption | lra].
Qed.

(** An amount scaled by the factors of year [k+1] is at most the same amount
    scaled by the factors of year [k+2]. *)
Lemma scaled_amount_mono (amount : Q) (k : nat) :
  0 <= amount ->
  amount * py_min (0.6 + (inject_Z (Z.of_nat (S k)) * 0.15)) 1.0
  * (1 + 0.03 * inject_Z (Z.of_nat (S k) - 1))
  <= amount * py_min (0.6 + (inject_Z (Z.of_nat (S (S k))) * 0.15)) 1.0
     * (1 + 0.03 * inject_Z (Z.of_nat (S (S k)) - 1)).
Proof.
  intro Ha.
  pose proof (ramp_factor_nonneg k) as Hr.
  pose proof (growth_factor_ge_1 k) as Hg.
  pose proof (ramp_factor_mono (Z.of_nat (S k)) (Z.of_nat (S (S k)))
                ltac:(lia)) as Hrm.
  pose proof (growth_factor_mono (Z.of_nat (S k)) (Z.of_nat (S (S k)))
                ltac:(lia)) as Hgm.
  apply Qmult_le_mono_nonneg.
  - apply Qmult_le_0_compat; assumption.
  - rewrite <- !(Qmult_comm (py_min _ _)).
    apply Qmult_le_compat_r; assumption.
  - lra.
  - exact Hgm.
Qed.

Lemma net_cf_step (k : nat) :
  valid -> net (Z.of_nat (S k)) <= net (Z.of_nat (S (S k))).
Proof.
  intro V. destruct (amounts_nonneg _ _ _ _ _ _ _ _ _ _ V) as [Hr Hc].
  unfold net_cf_at.
  pose proof (scaled_amount_mono _ k Hr).
  pose proof (scaled_amount_mono _ k Hc).
  lra.
Qed.

Lemma net_cf_mono (j j' : nat) :
  valid -> (j <= j')%nat ->
  net (Z.of_nat (S j)) <= net (Z.of_nat (S j')).
Proof.
  intros V H. induction H as [|j' H IH].
  - apply Qle_refl.
  - eapply Qle_trans; [exact IH | now apply net_cf_step].
Qed.

Lemma benefit_step (y : nat) :
  valid ->
  Row.operational_benefit (row y) <= Row.operational_benefit (row (S y)).
Proof.
  intro V. destruct (amounts_nonneg _ _ _ _ _ _ _ _ _ _ V) as [Hr Hc].
  destruct y as [|k]; cbn [row_at Row.operational_benefit].
  - change (Z.of_nat 1) with 1%Z. rewrite ramp_factor_year_1.
    change (inject_Z (1 - 1)) with 0. lra.
  - pose proof (scaled_amount_mono _ k Hr).
    pose proof (scaled_amount_mono _ k Hc).
    lra.
Qed.

(** X4.  For every valid input the operational benefit never decreases
    from one year to the next, year 0 included, and from year 1 on neither
    does the net cash flow. *)
Theorem benefits_never_decrease :
  valid_input template initial_investment annual_maintenance_pct
    revenue_lift_pct cost_savings_pct discount_rate time_horizon base_volume
    base_value process_cost ->
  exists df m,
    calculate_financials template initial_investment annual_maintenance_pct
      revenue_lift_pct cost_savings_pct discount_rate time_horizon
      base_volume base_value process_cost = Ok (df, m) /\
    (forall y r r',
        nth_error df y = Some r ->
        nth_error df (S y) = Some r' ->
        Row.operational_benefit r <= Row.operational_benefit r') /\
    (forall y r r',
        (1 <= y)%nat ->
        nth_error df y = Some r ->
        nth_error df (S y) = Some r' ->
        Row.net_cash_flow r <= Row.net_cash_flow r').
Proof.
  intro V.
  destruct (run_returns template initial_investment annual_maintenance_pct
              revenue_lift_pct cost_savings_pct discount_rate time_horizon
              base_volume base_value process_cost
              (valid_discount _ _ _ _ _ _ _ _ _ _ V)) as (p & _ & Hrun).
  exists ledger, (metrics ledger p).
  split; [exact Hrun | split].
  - intros y r r' Hr Hr'.
    apply ledger_upto_nth_inv in Hr as [_ ->].
    apply ledger_upto_nth_inv in Hr' as [_ ->].
    now apply benefit_step.
  - intros y r r' Hy Hr Hr'.
    apply ledger_upto_nth_inv in Hr as [_ ->].
    apply ledger_upto_nth_inv in Hr' as [_ ->].
    destruct y as [|k]; [lia |].
    cbn [row_at Row.net_cash_flow]. now apply net_cf_step.
Qed.

Lemma cum_mono_after (i y : nat) :
  valid -> 0 <= net (Z.of_nat (S i)) -> (i <= y)%nat ->
  forall j, cum y <= cum (y + j).
Proof.
  intros V Hi Hy. induction j as [|j IH].
  - rewrite Nat.add_0_r. apply Qle_refl.
  - replace (y + S j)%nat with (S (y + j)) by lia.
    cbn [cum_at].
    pose proof (net_cf_mono i (y + j) V ltac:(lia)).
    lra.
Qed.

Lemma maintenance_at_most_investment :
  valid -> annual_maintenance <= initial_investment.
Proof.
  intros (_ & _ & _ & _ & _ & Hi & [Ha0 Ha1] & _).
  unfold annual_maintenance_of.
  rewrite <- (Qmult_1_r initial_investment) at 2.
  rewrite !(Qmult_comm initial_investment).
  apply Qmult_le_compat_r; assumption.
Qed.

(** X5.  For every valid input, once the cumulative cash flow has turned
    positive it stays positive: every year from the first positive one on has
    a positive cumulative cash flow. *)
Theorem positive_cumulative_stays_positive :
  valid_input template initial_investment annual_maintenance_pct
    revenue_lift_pct cost_savings_pct discount_rate time_horizon base_volume
    base_value process_cost ->
  exists df m,
    calculate_financials template initial_investment annual_maintenance_pct
      revenue_lift_pct cost_savings_pct discount_rate time_horizon
      base_volume base_value process_cost = Ok (df, m) /\
    forall y y' r',
      first_positive df y ->
      (y <= y')%nat ->
      nth_error df y' = Some r' ->
      0 < Row.cumulative_cf r'.
Proof.
  intro V.
  destruct (run_returns template initial_investment annual_maintenance_pct
              revenue_lift_pct cost_savings_pct discount_rate time_horizon
              base_volume base_value process_cost
              (valid_discount _ _ _ _ _ _ _ _ _ _ V)) as (p & _ & Hrun).
  exists ledger, (metrics ledger p).
  split; [exact Hrun |].
  intros y y' r' [(r & Hr & Pos) Below] Hyy Hr'.
  apply ledger_upto_nth_inv in Hr as [Hy ->].
  apply ledger_upto_nth_inv in Hr' as [_ ->].
  rewrite row_cumulative in *.
  replace y' with (y + (y' - y))%nat by lia.
  destruct (amounts_nonneg _ _ _ _ _ _ _ _ _ _ V) as [Hra Hca].
  pose proof (maintenance_at_most_investment V) as Hm.
  destruct y as [|k].
  - assert (H1 : 0 <= net (Z.of_nat 1)).
    { unfold net_cf_at. change (Z.of_nat 1) with 1%Z.
      rewrite ramp_factor_year_1. change (inject_Z (1 - 1)) with 0.
      cbn [cum_at] in Pos. lra. }
    pose proof (cum_mono_after 0 0 V H1 ltac:(lia) (y' - 0)). lra.
  - assert (Hk : Row.cumulative_cf (row k) <= 0).
    { apply (Below k); [lia |]. apply ledger_upto_nth. lia. }
    rewrite row_cumulative in Hk.
    assert (H1 : 0 <= net (Z.of_nat (S k))).
    { cbn [cum_at] in Pos. lra. }
    pose proof (cum_mono_after k (S k) V H1 ltac:(lia) (y' - S k)). lra.
Qed.

(** *** Costs, return on investment and the case of no benefit *)

Lemma total_all_zero (f : Row.t -> Q) (df : DataFrame) :
  (forall y r, nth_error df y = Some r -> f r == 0) -> total f df == 0.
Proof.
  intro H. transitivity (total (fun _ => 0) df); [now apply total_ext |].
  clear H. unfold total. induction df as [|r df IH]; cbn [fold_right].
  - reflexivity.
  - rewrite IH. ring.
Qed.

Lemma total_nonpos (f : Row.t -> Q) (df : DataFrame) :
  (forall y r, nth_error df y = Some r -> f r <= 0) -> total f df <= 0.
Proof.
  induction df as [|r df IH]; intro H; cbn [total fold_right].
  - apply Qle_refl.
  - fold (total f df).
    pose proof (H O r eq_refl).
    assert (total f df <= 0).
    { apply IH. intros y r' Hy. apply (H (S y) r' Hy). }
    lra.
Qed.

Lemma Qdiv_nonpos (a b : Q) : a <= 0 -> 0 < b -> a / b <= 0.
Proof.
  intros Ha Hb. apply Qle_shift_div_r; [exact Hb | lra].
Qed.

Lemma maintenance_nonneg : valid -> 0 <= annual_maintenance.
Proof.
  intros (_ & _ & _ & _ & _ & Hi & [Ha0 _] & _).
  unfold annual_maintenance_of. now apply Qmult_le_0_compat.
Qed.

Lemma horizon_ge_1 : valid -> 1 <= inject_Z time_horizon.
Proof.
  intros (Hh & _). change 1 with (inject_Z 1). now rewrite <- Zle_Qle.
Qed.

Lemma total_costs_positive :
  valid -> 0 < initial_investment ->
  0 < initial_investment + annual_maintenance * inject_Z time_horizon.
Proof.
  intros V Hi.
  pose proof (maintenance_nonneg V) as Hm.
  pose proof (horizon_ge_1 V) as Hh.
  assert (0 <= annual_maintenance * inject_Z time_horizon).
  { apply Qmult_le_0_compat; lra. }
  lra.
Qed.

Lemma total_benefits_nonneg :
  valid -> 0 <= column_sum Row.operational_benefit ledger.
Proof.
  intro V. rewrite column_sum_total. apply total_nonneg.
  intros y r Hr. apply ledger_upto_nth_inv in Hr as [_ ->].
  apply (benefits_nonneg _ _ _ _ _ _ _ _ _ _ y V).
Qed.

(** X6.  For every valid input, whenever [roi] is a finite number the
    initial investment is positive, [roi] is at least -100, and it is
    positive exactly when the total benefits exceed the total costs. *)
Theorem finite_roi_needs_an_investment :
  valid_input template initial_investment annual_maintenance_pct
    revenue_lift_pct cost_savings_pct discount_rate time_horizon base_volume
    base_value process_cost ->
  exists df m,
    calculate_financials template initial_investment annual_maintenance_pct
      revenue_lift_pct cost_savings_pct discount_rate time_horizon
      base_volume base_value process_cost = Ok (df, m) /\
    (forall q,
        Metrics.roi m = Finite q ->
        0 < initial_investment /\
        -100 <= q /\
        (0 < q <-> Metrics.total_costs m < Metrics.total_benefits m)).
Proof.
  intro V.
  destruct (run_returns template initial_investment annual_maintenance_pct
              revenue_lift_pct cost_savings_pct discount_rate time_horizon
              base_volume base_value process_cost
              (valid_discount _ _ _ _ _ _ _ _ _ _ V)) as (p & _ & Hrun).
  exists ledger, (metrics ledger p).
  split; [exact Hrun |].
  cbn [metrics_of Metrics.roi Metrics.total_costs Metrics.total_benefits].
  pose proof (total_benefits_nonneg V) as Hb.
  set (tb := column_sum Row.operational_benefit ledger) in *.
  fold annual_maintenance.
  set (tc := initial_investment + annual_maintenance * inject_Z time_horizon).
  assert (Hi : 0 <= initial_investment) by apply V.
  assert (Zero : initial_investment == 0 -> tc == 0).
  { intro E. unfold tc, annual_maintenance_of. rewrite E. ring. }
  assert (Pos : 0 < initial_investment -> 0 < tc).
  { intro H. now apply total_costs_positive. }
  intros q Hq.
  destruct (Qlt_le_dec 0 initial_investment) as [Hinv | Hinv].
  - specialize (Pos Hinv). split; [exact Hinv |].
    rewrite np_truediv_finite in Hq by lra.
    cbn [np_mul] in Hq. injection Hq as <-.
    assert (Hx : (tb - tc) / tc * tc == tb - tc) by (field; lra).
    set (x := (tb - tc) / tc) in *.
    assert (L : -1 <= x).
    { unfold x. apply Qle_shift_div_l; [exact Pos | lra]. }
    split; [lra |]. split; intro H.
    + assert (0 < x) by lra.
      assert (0 < x * tc) by (apply Qmult_lt_0_compat; assumption).
      lra.
    + assert (0 < x); [| lra].
      unfold x. apply Qlt_shift_div_l; [exact Pos | lra].
  - exfalso.
    assert (E : tc == 0) by (apply Zero; lra).
    unfold np_truediv in Hq. apply Qeq_bool_iff in E. rewrite E in Hq.
    destruct (Qltb 0 (tb - tc)); [discriminate Hq |].
    destruct (Qltb (tb - tc) 0); discriminate Hq.
Qed.

Lemma net_cf_without_benefit (year : Z) :
  revenue_lift_amount == 0 -> cost_savings_amount == 0 ->
  net year == - annual_maintenance.
Proof.
  intros Hr Hc. unfold net_cf_at. rewrite Hr, Hc. ring.
Qed.

Lemma cum_without_benefit (y : nat) :
  valid -> revenue_lift_amount == 0 -> cost_savings_amount == 0 ->
  cum y <= 0.
Proof.
  intros V Hr Hc.
  pose proof (maintenance_nonneg V) as Hm.
  assert (Hi : 0 <= initial_investment) by apply V.
  induction y as [|k IH]; cbn [cum_at].
  - rewrite Hr, Hc. lra.
  - rewrite (net_cf_without_benefit _ Hr Hc). lra.
Qed.

(** X7.  For every valid input whose steady-state amounts are both zero
    (no volume, or no lift and no savings): the total benefits are zero, each
    year after year 0 loses the annual maintenance, the payback is ['N/A'],
    the net present value is not positive, and with a positive investment
    [roi] is -100. *)
Theorem no_benefit_no_payback :
  valid_input template initial_investment annual_maintenance_pct
    revenue_lift_pct cost_savings_pct discount_rate time_horizon base_volume
    base_value process_cost ->
  revenue_lift_amount_of template base_volume base_value revenue_lift_pct == 0 ->
  cost_savings_amount_of template base_volume process_cost cost_savings_pct == 0 ->
  exists df m,
    calculate_financials template initial_investment annual_maintenance_pct
      revenue_lift_pct cost_savings_pct discount_rate time_horizon
      base_volume base_value process_cost = Ok (df, m) /\
    Metrics.total_benefits m == 0 /\
    (forall y r,
        (1 <= y)%nat ->
        nth_error df y = Some r ->
        Row.net_cash_flow r
        == - annual_maintenance_of initial_investment annual_maintenance_pct) /\
    Metrics.payback m = PaybackNA /\
    Metrics.npv m <= 0 /\
    (0 < initial_investment ->
     exists q, Metrics.roi m = Finite q /\ q == -100).
Proof.
  intros V Hr Hc.
  pose proof (valid_discount _ _ _ _ _ _ _ _ _ _ V) as Hd.
  destruct (run_returns template initial_investment annual_maintenance_pct
              revenue_lift_pct cost_savings_pct discount_rate time_horizon
              base_volume base_value process_cost Hd) as (p & Hp & Hrun).
  exists ledger, (metrics ledger p).
  split; [exact Hrun |].
  cbn [metrics_of Metrics.roi Metrics.total_costs Metrics.total_benefits
         Metrics.payback Metrics.npv].
  assert (Never : never_positive ledger).
  { intros y r Hy. apply ledger_upto_nth_inv in Hy as [_ ->].
    rewrite row_cumulative. now apply cum_without_benefit. }
  assert (Hb : column_sum Row.operational_benefit ledger == 0).
  { rewrite column_sum_total. apply total_all_zero.
    intros y r Hy. apply ledger_upto_nth_inv in Hy as [_ ->].
    destruct y; cbn [row_at Row.operational_benefit]; rewrite Hr, Hc; ring. }
  pose proof (maintenance_nonneg V) as Hm.
  assert (Hi : 0 <= initial_investment) by apply V.
  assert (Hrate : 0 < 1 + discount_rate).
  { destruct V as (_ & H & _). lra. }
  split; [exact Hb | split; [| split; [| split]]].
  - intros y r Hy Hrow. apply ledger_upto_nth_inv in Hrow as [_ ->].
    destruct y as [|k]; [lia |].
    cbn [row_at Row.net_cash_flow]. now apply net_cf_without_benefit.
  - rewrite (find_payback_never _ Never) in Hp. now injection Hp.
  - rewrite column_sum_total. apply total_nonpos.
    intros y r Hy. apply ledger_upto_nth_inv in Hy as [_ ->].
    destruct y as [|k]; cbn [row_at Row.discounted_cf];
      (apply Qdiv_nonpos; [| now apply Qpower_0_lt]).
    + rewrite Hr, Hc. lra.
    + rewrite (net_cf_without_benefit _ Hr Hc). lra.
  - intro Hpos.
    pose proof (total_costs_positive V Hpos) as Htc.
    rewrite np_truediv_finite by (unfold annual_maintenance_of in Htc; lra).
    eexists. split; [reflexivity |].
    rewrite Hb. field. unfold annual_maintenance_of in Htc. lra.
Qed.

End Projection.

(** X8.  Whatever the ledger, when the first year [y] with a positive
    cumulative cash flow is not year 0, the payback found lies within the
    year before it: it is at least [y - 1] and less than [y]. *)
Theorem payback_lies_in_crossing_year :
  forall (df : DataFrame) (y : nat),
    (1 <= y)%nat ->
    first_positive df y ->
    exists q,
      payback_loop df df 0 = Ok (PaybackNum (Finite q)) /\
      Qyear (y - 1) <= q /\ q < Qyear y.
Proof.
  intros df y Hy F.
  destruct F as [(curr & Hcurr & Pos) Below].
  destruct (nth_error df (y - 1)) as [prev|] eqn:Hprev.
  - assert (Neg : Row.cumulative_cf prev <= 0).
    { apply (Below (y - 1)%nat); [lia | exact Hprev]. }
    eexists. split.
    + apply (find_payback_crossing df y prev curr); try assumption.
      split; [now exists curr | exact Below].
    + rewrite (Qabs_neg _ Neg).
      set (c := Row.cumulative_cf curr) in *.
      set (p := Row.cumulative_cf prev) in *.
      assert (Den : 0 < c - p) by lra.
      assert (L : 0 <= - p / (c - p)).
      { apply Qle_shift_div_l; [exact Den | lra]. }
      assert (U : - p / (c - p) < 1).
      { apply Qlt_shift_div_r; [exact Den | lra]. }
      assert (E : Qyear y == Qyear (y - 1) + 1).
      { unfold Qyear. replace (Z.of_nat y) with (Z.of_nat (y - 1) + 1)%Z by lia.
        rewrite inject_Z_plus. reflexivity. }
      rewrite E. split; lra.
  - exfalso. apply nth_error_None in Hprev.
    assert (y < List.length df)%nat; [| lia].
    apply nth_error_Some. congruence.
Qed.

(** * The charts *)

Lemma py_getitem_in_range {A : Type} (xs : list A) (idx : nat) (d : A) :
  (idx < List.length xs)%nat -> py_getitem xs idx = Indexed (nth idx xs d).
Proof.
  intro H. unfold py_getitem.
  rewrite (nth_error_nth' xs d H). reflexivity.
Qed.

Lemma py_getitem_out_of_range {A : Type} (xs : list A) (idx : nat) :
  (List.length xs <= idx)%nat -> py_getitem xs idx = IndexError.
Proof.
  intro H. unfold py_getitem.
  apply nth_error_None in H. now rewrite H.
Qed.

Lemma combine_seq_values {A B C : Type} (f : nat -> B) (g : nat -> A -> B -> C)
  (xs : list A) :
  forall k : nat,
    map (fun '(i, (c, v)) => g i c v)
      (combine (seq k (List.length xs))
         (combine xs (map f (seq k (List.length xs)))))
    = map (fun '(i, c) => g i c (f i)) (combine (seq k (List.length xs)) xs).
Proof.
  induction xs as [|x xs IH]; intro k; [reflexivity |].
  cbn [List.length seq map combine]. f_equal. apply IH.
Qed.

Section ImpactChart.

Variable df : DataFrame.
Variable template : UseCaseTemplate.

Local Abbreviation categories := (Template.impact_categories template).
Local Abbreviation colors := (Template.category_colors template).
Local Abbreviation years := (column Row.year (after_year_0 df)).

(** The values of the category in position [i]. *)
Local Abbreviation series i :=
  (map (fun r => Row.operational_benefit r * (nth i [1.2; 1.0; 0.8] 0 / 3))
     (after_year_0 df)).

(** The bar of the category [c] in position [i] with values [v]. *)
Local Abbreviation bar i c v :=
  (Figure.Bar years v c (nth i colors EmptyString)
     (c ++ "<br>Year %{x}<br>$%{y:,.0f}<extra></extra>")).

Lemma categories_loop_returns (cats : list string) :
  forall (idx : nat) (acc : list (list Q)),
    (idx + List.length cats <= 3)%nat ->
    categories_loop df cats idx acc
    = Indexed (acc ++ map (fun i => series i) (seq idx (List.length cats))).
Proof.
  induction cats as [|c cats IH]; intros idx acc H; cbn [categories_loop].
  - cbn. now rewrite app_nil_r.
  - cbn [List.length] in H.
    rewrite (py_getitem_in_range _ idx 0) by (cbn; lia).
    cbn [indexing_bind]. rewrite IH by lia.
    cbn [List.length seq map]. now rewrite <- app_assoc.
Qed.

Lemma categories_loop_raises (cats : list string) :
  forall (idx : nat) (acc : list (list Q)),
    (idx <= 3)%nat ->
    (3 < idx + List.length cats)%nat ->
    categories_loop df cats idx acc = IndexError.
Proof.
  induction cats as [|c cats IH]; intros idx acc Hi H; cbn [categories_loop].
  - cbn in H. lia.
  - cbn [List.length] in H.
    destruct (Nat.eq_dec idx 3) as [-> | Ne].
    + reflexivity.
    + rewrite (py_getitem_in_range _ idx 0) by (cbn; lia).
      cbn [indexing_bind]. apply IH; lia.
Qed.

Lemma traces_loop_returns (pairs : list (string * list Q)) :
  forall (idx : nat) (acc : list Figure.trace),
    (idx + List.length pairs <= List.length colors)%nat ->
    traces_loop template years pairs idx acc
    = Indexed
        (acc ++ map (fun '(i, (c, v)) => bar i c v)
                  (combine (seq idx (List.length pairs)) pairs)).
Proof.
  induction pairs as [|[c v] pairs IH]; intros idx acc H; cbn [traces_loop].
  - cbn. now rewrite app_nil_r.
  - cbn [List.length] in H.
    rewrite (py_getitem_in_range _ idx EmptyString) by lia.
    cbn [indexing_bind]. rewrite IH by lia.
    cbn [List.length seq combine map]. now rewrite <- app_assoc.
Qed.

Lemma traces_loop_raises (pairs : list (string * list Q)) :
  forall (idx : nat) (acc : list Figure.trace),
    (idx <= List.length colors)%nat ->
    (List.length colors < idx + List.length pairs)%nat ->
    traces_loop template years pairs idx acc = IndexError.
Proof.
  induction pairs as [|[c v] pairs IH]; intros idx acc Hi H; cbn [traces_loop].
  - cbn in H. lia.
  - cbn [List.length] in H.
    destruct (Nat.eq_dec idx (List.length colors)) as [E | Ne].
    + rewrite py_getitem_out_of_range by lia. reflexivity.
    + rewrite (py_getitem_in_range _ idx EmptyString) by lia.
      cbn [indexing_bind]. apply IH; lia.
Qed.

(** The traces drawn when nothing raises. *)
Lemma impact_chart_traces :
  (List.length categories <= 3)%nat ->
  (List.length categories <= List.length colors)%nat ->
  exists fig,
    create_impact_chart df template = Indexed fig /\
    Figure.data fig
    = map (fun '(i, c) => bar i c (series i))
        (combine (seq 0 (List.length categories)) categories).
Proof.
  intros H3 Hc. unfold create_impact_chart.
  rewrite categories_loop_returns by lia. cbn [indexing_bind app].
  rewrite traces_loop_returns
    by (rewrite length_combine, length_map, length_seq; lia).
  cbn [indexing_bind app]. eexists. split; [reflexivity |].
  cbn [Figure.data].
  rewrite length_combine, length_map, length_seq, Nat.min_id.
  apply (combine_seq_values (fun i => series i) (fun i c v => bar i c v)).
Qed.

End ImpactChart.


Lemma filter_keeps_all {A : Type} (f : A -> bool) (l : list A) :
  (forall a, In a l -> f a = true) -> filter f l = l.
Proof.
  induction l as [|a l IH]; intro H; [reflexivity |].
  cbn [filter]. rewrite (H a (or_introl eq_refl)).
  f_equal. apply IH. intros b Hb. apply H. now right.
Qed.


Lemma Qsum_column (f : Row.t -> Q) (df : DataFrame) :
  Qsum (column f df) = total f df.
Proof.
  unfold Qsum, column, total.
  induction df as [|r df IH]; [reflexivity |].
  cbn [map fold_right]. now rewrite IH.
Qed.

(** Without the colour check the chart fails exactly when a position has no
    variation or no colour. *)
Lemma create_impact_chart_index_error (df : DataFrame)
  (template : UseCaseTemplate) :
  create_impact_chart df template = IndexError
  <-> (3 < List.length (Template.impact_categories template))%nat
      \/ (List.length (Template.category_colors template)
          < List.length (Template.impact_categories template))%nat.
Proof.
  split.
  - intro H.
    destruct (Nat.le_gt_cases (List.length (Template.impact_categories template)) 3)
      as [H3 | H3]; [| now left].
    destruct (Nat.le_gt_cases
                (List.length (Template.impact_categories template))
                (List.length (Template.category_colors template)))
      as [Hc | Hc]; [| now right].
    destruct (impact_chart_traces df template H3 Hc) as (fig & Hfig & _).
    rewrite Hfig in H. discriminate H.
  - intros [H3 | Hc]; unfold create_impact_chart.
    + rewrite categories_loop_raises by lia. reflexivity.
    + destruct (Nat.le_gt_cases
                  (List.length (Template.impact_categories template)) 3)
        as [H3 | H3].
      * rewrite categories_loop_returns by lia. cbn [indexing_bind app].
        rewrite traces_loop_raises;
          [reflexivity | lia |].
        rewrite length_combine, length_map, length_seq. lia.
      * rewrite categories_loop_raises by lia. reflexivity.
Qed.

Lemma py_getitem_skipn {A : Type} (xs : list A) (idx : nat) :
  match skipn idx xs with
  | [] => py_getitem xs idx = IndexError
  | x :: rest => py_getitem xs idx = Indexed x /\ skipn (S idx) xs = rest
  end.
Proof.
  unfold py_getitem. revert idx.
  induction xs as [|x xs IH]; intros [|idx]; cbn [skipn nth_error];
    try reflexivity.
  - split; reflexivity.
  - apply IH.
Qed.

(** The checked loop: it raises [ValueError] when one of the colours it
    reaches is refused, and otherwise does what the loop without the check
    does. *)
Lemma checked_traces_loop_eq (is_color : string -> bool)
  (template : UseCaseTemplate) (years : list Z)
  (pairs : list (string * list Q)) :
  forall (idx : nat) (acc : list Figure.trace),
    checked_traces_loop is_color template years pairs idx acc
    = if forallb is_color
           (firstn (List.length pairs)
              (skipn idx (Template.category_colors template)))
      then chart_index (traces_loop template years pairs idx acc)
      else RaisedValueError.
Proof.
  induction pairs as [|[c v] pairs IH]; intros idx acc.
  - reflexivity.
  - cbn [checked_traces_loop traces_loop List.length].
    pose proof (py_getitem_skipn (Template.category_colors template) idx) as G.
    destruct (skipn idx (Template.category_colors template)) as [|x rest].
    + rewrite G. reflexivity.
    + destruct G as [-> E].
      cbn [chart_index chart_bind indexing_bind firstn forallb].
      unfold go_Bar. destruct (is_color x); cbn [andb chart_bind].
      * rewrite IH, E. reflexivity.
      * reflexivity.
Qed.

Lemma checked_chart_eq (is_color : string -> bool) (df : DataFrame)
  (template : UseCaseTemplate) :
  (List.length (Template.impact_categories template) <= 3)%nat ->
  create_impact_chart_checked is_color df template
  = if forallb is_color
         (firstn (List.length (Template.impact_categories template))
            (Template.category_colors template))
    then chart_index (create_impact_chart df template)
    else RaisedValueError.
Proof.
  intro H3. unfold create_impact_chart_checked, create_impact_chart.
  rewrite categories_loop_returns by lia.
  cbn [chart_index chart_bind indexing_bind app].
  rewrite checked_traces_loop_eq.
  rewrite length_combine, length_map, length_seq, Nat.min_id.
  cbn [skipn].
  destruct (forallb is_color _); [| reflexivity].
  destruct (traces_loop _ _ _ _ _); reflexivity.
Qed.

Lemma checked_chart_too_many (is_color : string -> bool) (df : DataFrame)
  (template : UseCaseTemplate) :
  (3 < List.length (Template.impact_categories template))%nat ->
  create_impact_chart_checked is_color df template = RaisedIndexError.
Proof.
  intro H3. unfold create_impact_chart_checked.
  rewrite categories_loop_raises by lia. reflexivity.
Qed.

(** X9.  The outcomes of [create_impact_chart], whatever colours plotly
    accepts.  It raises [IndexError] exactly when the template has more than
    three impact categories, or fewer colours than categories and all of
    them accepted.  It raises [ValueError] exactly when there are at most
    three categories and one of the colours of their positions is refused.
    It returns a figure exactly when there are at most three categories, a
    colour for each and each of these accepted; the figure is then the one
    of the chart without the check.  The data frame plays no part in
    which of the three happens. *)
Theorem impact_chart_raises_exactly :
  forall (is_color : string -> bool) (df : DataFrame)
         (template : UseCaseTemplate),
    (create_impact_chart_checked is_color df template = RaisedIndexError
     <-> (3 < List.length (Template.impact_categories template))%nat
         \/ ((List.length (Template.category_colors template)
              < List.length (Template.impact_categories template))%nat
             /\ forallb is_color (Template.category_colors template) = true)) /\
    (create_impact_chart_checked is_color df template = RaisedValueError
     <-> (List.length (Template.impact_categories template) <= 3)%nat
         /\ forallb is_color
              (firstn (List.length (Template.impact_categories template))
                 (Template.category_colors template)) = false) /\
    (forall fig,
        create_impact_chart_checked is_color df template = Drawn fig
        <-> (List.length (Template.impact_categories template) <= 3)%nat
            /\ (List.length (Template.impact_categories template)
                <= List.length (Template.category_colors template))%nat
            /\ forallb is_color
                 (firstn (List.length (Template.impact_categories template))
                    (Template.category_colors template)) = true
            /\ create_impact_chart df template = Indexed fig).
Proof.
  intros is_color df template.
  set (cats := Template.impact_categories template).
  set (colors := Template.category_colors template).
  destruct (Nat.le_gt_cases (List.length cats) 3) as [H3 | H3].
  - pose proof (checked_chart_eq is_color df template H3) as E.
    fold cats colors in E.
    pose proof (create_impact_chart_index_error df template) as I.
    fold cats colors in I.
    destruct (Nat.le_gt_cases (List.length cats) (List.length colors))
      as [Hc | Hc].
    + destruct (impact_chart_traces df template H3 Hc) as (fig0 & Hfig & _).
      rewrite Hfig in E. cbn [chart_index] in E. rewrite E.
      destruct (forallb is_color (firstn (List.length cats) colors)).
      * split; [| split].
        -- split; [discriminate | intros [H | [H _]]; lia].
        -- split; [discriminate | intros [_ H]; discriminate H].
        -- intro fig. rewrite Hfig. split.
           ++ intro H. injection H as <-. repeat split; assumption.
           ++ intros (_ & _ & _ & H). injection H as <-. reflexivity.
      * split; [| split].
        -- split; [discriminate | intros [H | [H _]]; lia].
        -- split; [intros _; split; [exact H3 | reflexivity] | reflexivity].
        -- intro fig. split; [discriminate |].
           intros (_ & _ & H & _). discriminate H.
    + assert (F : firstn (List.length cats) colors = colors)
        by (apply firstn_all2; lia).
      rewrite F in *.
      assert (Hraise : create_impact_chart df template = IndexError)
        by (apply I; right; exact Hc).
      rewrite Hraise in E. cbn [chart_index] in E. rewrite E.
      destruct (forallb is_color colors).
      * split; [| split].
        -- split; [intros _; right; split; [exact Hc | reflexivity]
                  | reflexivity].
        -- split; [discriminate | intros [_ H]; discriminate H].
        -- intro fig. split; [discriminate | intros (_ & H & _); lia].
      * split; [| split].
        -- split; [discriminate |].
           intros [H | [_ H]]; [lia | discriminate H].
        -- split; [intros _; split; [exact H3 | reflexivity] | reflexivity].
        -- intro fig. split; [discriminate | intros (_ & H & _); lia].
  - rewrite (checked_chart_too_many is_color df template H3).
    split; [| split].
    + split; [intros _; left; exact H3 | reflexivity].
    + split; [discriminate | intros [H _]; fold cats in H; lia].
    + intro fig. split; [discriminate | intros (H & _); fold cats in H; lia].
Qed.

Lemma impact_bars_names_and_colours (df : DataFrame)
  (template : UseCaseTemplate) (fig : Figure.t) :
  (List.length (Template.impact_categories template) <= 3)%nat ->
  (List.length (Template.impact_categories template)
   <= List.length (Template.category_colors template))%nat ->
  create_impact_chart df template = Indexed fig ->
  map trace_name (Figure.data fig) = Template.impact_categories template /\
  map trace_color (Figure.data fig)
  = firstn (List.length (Template.impact_categories template))
      (Template.category_colors template) /\
  Forall (fun t => trace_x t = column Row.year (after_year_0 df))
    (Figure.data fig) /\
  Figure.barmode fig = Some "stack"%string.
Proof.
  intros H3 Hc Hfig0.
  destruct (impact_chart_traces df template H3 Hc) as (fig' & Hfig & Hdata).
  assert (fig' = fig) as -> by congruence. clear Hfig0.
  assert (Hmode : Figure.barmode fig = Some "stack"%string).
  { unfold create_impact_chart in Hfig.
    rewrite categories_loop_returns in Hfig by lia.
    cbn [indexing_bind app] in Hfig.
    rewrite traces_loop_returns in Hfig
      by (rewrite length_combine, length_map, length_seq; lia).
    cbn [indexing_bind] in Hfig. injection Hfig as <-. reflexivity. }
  rewrite Hdata. clear Hfig Hdata H3.
  revert Hc.
  generalize (Template.category_colors template) as colors.
  generalize (Template.impact_categories template) as cats.
  intros cats colors Hc.
  repeat split.
  - rewrite map_map.
    assert (G : forall k,
               map (fun x : nat * string =>
                      trace_name
                        (let '(i, c) := x in
                         Figure.Bar (column Row.year (after_year_0 df))
                           (map (fun r => Row.operational_benefit r
                                          * (nth i [1.2; 1.0; 0.8] 0 / 3))
                              (after_year_0 df))
                           c (nth i colors EmptyString)
                           (c ++ "<br>Year %{x}<br>$%{y:,.0f}<extra></extra>")))
                 (combine (seq k (List.length cats)) cats) = cats).
    { induction cats as [|c cats IH]; intro k; [reflexivity |].
      cbn [List.length seq combine map trace_name]. f_equal.
      apply IH. cbn [List.length] in Hc. lia. }
    apply G.
  - rewrite map_map.
    assert (G : forall k cs,
               (List.length cs <= List.length colors - k)%nat ->
               map (fun x : nat * string =>
                      trace_color
                        (let '(i, c) := x in
                         Figure.Bar (column Row.year (after_year_0 df))
                           (map (fun r => Row.operational_benefit r
                                          * (nth i [1.2; 1.0; 0.8] 0 / 3))
                              (after_year_0 df))
                           c (nth i colors EmptyString)
                           (c ++ "<br>Year %{x}<br>$%{y:,.0f}<extra></extra>")))
                 (combine (seq k (List.length cs)) cs)
               = firstn (List.length cs) (skipn k colors)).
    { intros k cs. revert k.
      induction cs as [|c cs IH]; intros k Hk; [reflexivity |].
      cbn [List.length] in Hk.
      cbn [List.length seq combine map trace_color].
      rewrite IH by lia.
      assert (Hlt : (k < List.length colors)%nat) by lia.
      rewrite <- (firstn_skipn k colors) at 1.
      rewrite app_nth2 by (rewrite length_firstn; lia).
      rewrite length_firstn, Nat.min_l, Nat.sub_diag by lia.
      destruct (skipn k colors) as [|x rest] eqn:E.
      - apply (f_equal (@List.length string)) in E.
        rewrite length_skipn in E. cbn in E. lia.
      - cbn [nth firstn]. f_equal.
        replace (skipn (S k) colors) with rest; [reflexivity |].
        change (S k) with (1 + k)%nat. rewrite <- skipn_skipn, E. reflexivity. }
    specialize (G 0%nat cats). cbn [skipn] in G. apply G. lia.
  - apply Forall_forall. intros t Ht.
    apply in_map_iff in Ht as ([i c] & <- & _). reflexivity.
  - exact Hmode.
Qed.

(** X10.  With at most three categories, a colour for each and each of
    these colours accepted by plotly, [create_impact_chart] draws one bar
    trace per category, in the order of the categories: named after it,
    coloured by the colour in the same position, and laid over the years
    after year 0; the bars are stacked. *)
Theorem impact_chart_has_one_bar_per_category :
  forall (is_color : string -> bool) (df : DataFrame)
         (template : UseCaseTemplate),
    (List.length (Template.impact_categories template) <= 3)%nat ->
    (List.length (Template.impact_categories template)
     <= List.length (Template.category_colors template))%nat ->
    forallb is_color
      (firstn (List.length (Template.impact_categories template))
         (Template.category_colors template)) = true ->
    exists fig,
      create_impact_chart_checked is_color df template = Drawn fig /\
      map trace_name (Figure.data fig) = Template.impact_categories template /\
      map trace_color (Figure.data fig)
      = firstn (List.length (Template.impact_categories template))
          (Template.category_colors template) /\
      Forall (fun c => is_color c = true)
        (map trace_color (Figure.data fig)) /\
      Forall (fun t => trace_x t = column Row.year (after_year_0 df))
        (Figure.data fig) /\
      Figure.barmode fig = Some "stack"%string.
Proof.
  intros is_color df template H3 Hc Hcol.
  destruct (impact_chart_traces df template H3 Hc) as (fig & Hfig & _).
  exists fig.
  destruct (impact_bars_names_and_colours df template fig H3 Hc Hfig)
    as (Hnames & Hcolors & Hx & Hmode).
  split.
  - rewrite (checked_chart_eq is_color df template H3), Hcol, Hfig.
    reflexivity.
  - split; [exact Hnames |]. split; [exact Hcolors |].
    split; [| split; [exact Hx | exact Hmode]].
    rewrite Hcolors. apply Forall_forall. intros c Hin.
    rewrite forallb_forall in Hcol. now apply Hcol.
Qed.



(** X13.  The cash-flow chart of a returned ledger: the bars and the line
    lie over the same years 0, ..., [time_horizon]; the bars are the net cash
    flows; each point of the line is the sum of the bars up to its year; and
    the one horizontal line is at zero. *)
Theorem cash_flow_chart_of_the_ledger :
  forall (template : UseCaseTemplate)
         (initial_investment annual_maintenance_pct revenue_lift_pct
            cost_savings_pct discount_rate : Q)
         (time_horizon base_volume : Z) (base_value process_cost : Q)
         (df : DataFrame) (m : Metrics.t),
    calculate_financials template initial_investment annual_maintenance_pct
      revenue_lift_pct cost_savings_pct discount_rate time_horizon
      base_volume base_value process_cost = Ok (df, m) ->
    exists bars line,
      Figure.data (create_cash_flow_chart df) = [bars; line] /\
      trace_name bars = "Net Annual Cash Flow"%string /\
      trace_name line = "Cumulative Cash Flow"%string /\
      trace_x bars = map Z.of_nat (seq 0 (S (Z.to_nat time_horizon))) /\
      trace_x line = trace_x bars /\
      trace_y bars = column Row.net_cash_flow df /\
      (forall y c,
          nth_error (trace_y line) y = Some c ->
          c == Qsum (firstn (S y) (trace_y bars))) /\
      map Figure.hline_y (Figure.hlines (create_cash_flow_chart df)) = [0].
Proof.
  intros template initial_investment annual_maintenance_pct revenue_lift_pct
    cost_savings_pct discount_rate time_horizon base_volume base_value
    process_cost df m Hrun.
  apply run_inversion in Hrun as [-> _].
  set (ledger := ledger_upto _ _ _ _ _ _).
  eexists. eexists.
  split; [reflexivity |].
  cbn [trace_name trace_x trace_y].
  repeat split.
  - unfold ledger, column. apply ledger_years.
  - intros y c Hc. unfold column in *.
    rewrite nth_error_map in Hc.
    destruct (nth_error ledger y) as [r|] eqn:Hr; [| discriminate Hc].
    injection Hc as <-.
    rewrite firstn_map. fold (column Row.net_cash_flow (firstn (S y) ledger)).
    rewrite Qsum_column.
    unfold ledger in *.
    apply ledger_upto_nth_inv in Hr as [Hy ->].
    rewrite firstn_ledger_upto by exact Hy.
    rewrite total_net_ledger_upto.
    destruct y; reflexivity.
Qed.

(** * The table, the cards and the download of [main] *)

(** ** Texts *)

Lemma list_ascii_of_append (s t : string) :
  list_ascii_of_string (s ++ t)
  = list_ascii_of_string s ++ list_ascii_of_string t.
Proof.
  induction s as [|a s IH]; cbn; [reflexivity | now rewrite IH].
Qed.

Lemma str_replace_list (old : ascii) (s : string) :
  list_ascii_of_string (str_replace old "" s)
  = filter (fun a => negb (Ascii.eqb a old)) (list_ascii_of_string s).
Proof.
  induction s as [|a s IH]; cbn; [reflexivity |].
  destruct (Ascii.eqb a old); cbn; [exact IH | now rewrite IH].
Qed.

Lemma str_replace_absent (old : ascii) (s : string) :
  (forall a, In a (list_ascii_of_string s) -> a <> old) ->
  str_replace old "" s = s.
Proof.
  intro H.
  rewrite <- (string_of_list_ascii_of_string (str_replace old "" s)).
  rewrite str_replace_list, filter_keeps_all.
  - apply string_of_list_ascii_of_string.
  - intros a Ha. apply negb_true_iff, Ascii.eqb_neq. now apply H.
Qed.

Lemma commas_filter (l : list ascii) :
  forall k,
    filter (fun a => negb (Ascii.eqb a ",")) (commas l k)
    = filter (fun a => negb (Ascii.eqb a ",")) l.
Proof.
  induction l as [|c l IH]; intro k; cbn [commas]; [reflexivity |].
  destruct (Nat.eqb k 3); cbn [filter];
    change (negb (Ascii.eqb "," ",")) with false; cbn iota;
    destruct (negb (Ascii.eqb c ",")); now rewrite IH.
Qed.

Lemma commas_chars (l : list ascii) (a : ascii) :
  forall k, In a (commas l k) -> a = ","%char \/ In a l.
Proof.
  induction l as [|c l IH]; intros k H; cbn [commas] in H; [destruct H |].
  destruct (Nat.eqb k 3); cbn [In] in H.
  - destruct H as [H | [H | H]]; [now left | right; now left |].
    destruct (IH _ H); [now left | right; now right].
  - destruct H as [H | H]; [right; now left |].
    destruct (IH _ H); [now left | right; now right].
Qed.

Lemma group_thousands_chars (s : string) (a : ascii) :
  In a (list_ascii_of_string (group_thousands s)) ->
  a = ","%char \/ In a (list_ascii_of_string s).
Proof.
  unfold group_thousands. rewrite list_ascii_of_string_of_list_ascii.
  intro H. apply in_rev in H. apply commas_chars in H as [H | H];
    [now left | right]. now apply in_rev.
Qed.

(** Taking the commas out of a grouped text gives the text back. *)
Lemma group_thousands_undone (s : string) :
  (forall a, In a (list_ascii_of_string s) -> a <> ","%char) ->
  str_replace "," "" (group_thousands s) = s.
Proof.
  intro H.
  rewrite <- (string_of_list_ascii_of_string (str_replace _ _ _)).
  rewrite str_replace_list. unfold group_thousands.
  rewrite list_ascii_of_string_of_list_ascii.
  rewrite filter_rev, commas_filter, <- filter_rev, rev_involutive.
  rewrite filter_keeps_all.
  - apply string_of_list_ascii_of_string.
  - intros a Ha. apply negb_true_iff, Ascii.eqb_neq. now apply H.
Qed.

Lemma N_to_uint_nonnil (n : N) : N.to_uint n <> Decimal.Nil.
Proof.
  destruct n as [|p]; [discriminate |].
  apply DecimalPos.Unsigned.to_uint_nonnil.
Qed.

Lemma string_of_uint_digits (d : Decimal.uint) (a : ascii) :
  In a (list_ascii_of_string (NilEmpty.string_of_uint d)) -> is_digit a = true.
Proof.
  induction d; cbn; intro H; try contradiction;
    (destruct H as [<- | H]; [reflexivity | now apply IHd]).
Qed.

Lemma digits_are_digits (n : N) (a : ascii) :
  In a (list_ascii_of_string (digits n)) -> is_digit a = true.
Proof.
  unfold digits, NilZero.string_of_uint.
  destruct (N.to_uint n) eqn:E; try apply string_of_uint_digits.
  now destruct (N_to_uint_nonnil n).
Qed.

Lemma digits_parse (n : N) : NilZero.uint_of_string (digits n) = Some (N.to_uint n).
Proof.
  unfold digits. apply NilZero.usu, N_to_uint_nonnil.
Qed.

Lemma digits_head (n : N) :
  exists a rest, digits n = String a rest /\ is_digit a = true.
Proof.
  destruct (digits n) as [|a rest] eqn:E.
  - pose proof (digits_parse n) as H. rewrite E in H. discriminate H.
  - exists a, rest. split; [reflexivity |].
    apply (digits_are_digits n). rewrite E. now left.
Qed.

Lemma py_float_digits (n : N) :
  py_float (digits n) = Some (inject_Z (Z.of_N n)).
Proof.
  destruct (digits_head n) as (a & rest & E & Ha).
  unfold py_float. rewrite E.
  destruct (Ascii.eqb a "-") eqn:Em.
  - apply Ascii.eqb_eq in Em. subst a. discriminate Ha.
  - rewrite <- E, digits_parse. cbn [option_map].
    now rewrite DecimalN.Unsigned.of_to.
Qed.

Lemma py_float_minus_digits (n : N) :
  py_float ("-" ++ digits n) = Some (- inject_Z (Z.of_N n)).
Proof.
  cbn [append py_float]. change (Ascii.eqb "-" "-") with true. cbn iota.
  rewrite digits_parse. cbn [option_map].
  now rewrite DecimalN.Unsigned.of_to.
Qed.

(** ** Rounding *)

Lemma round_half_even_cases (x : Q) :
  (round_half_even x = Qfloor x /\ x - inject_Z (Qfloor x) <= 1 # 2)
  \/ (round_half_even x = (Qfloor x + 1)%Z /\ 1 # 2 <= x - inject_Z (Qfloor x)).
Proof.
  unfold round_half_even.
  destruct (Qltb (x - inject_Z (Qfloor x)) (1 # 2)) eqn:E1.
  - left. apply Qltb_true in E1. split; [reflexivity | lra].
  - apply Qltb_false in E1.
    destruct (Qltb (1 # 2) (x - inject_Z (Qfloor x))) eqn:E2.
    + right. split; [reflexivity | exact E1].
    + apply Qltb_false in E2.
      destruct (Z.even (Qfloor x)); [left | right]; split;
        try reflexivity; assumption.
Qed.

(** The rounded value is a nearest integer. *)
Lemma round_half_even_near (x : Q) :
  Qabs (x - inject_Z (round_half_even x)) <= 1 # 2.
Proof.
  pose proof (Qfloor_le x) as Hlo. pose proof (Qlt_floor x) as Hhi.
  rewrite inject_Z_plus in Hhi. change (inject_Z 1) with 1 in Hhi.
  apply Qabs_Qle_condition.
  destruct (round_half_even_cases x) as [[-> H] | [-> H]].
  - split; lra.
  - rewrite inject_Z_plus. change (inject_Z 1) with 1. split; lra.
Qed.

Lemma Qfloor_small (x : Q) : 0 <= x -> x < 1 -> Qfloor x = 0%Z.
Proof.
  intros H0 H1.
  pose proof (Qfloor_le x) as Hlo. pose proof (Qlt_floor x) as Hhi.
  assert (A : (Qfloor x < 1)%Z).
  { rewrite Zlt_Qlt. change (inject_Z 1) with 1. lra. }
  assert (B : (-1 < Qfloor x)%Z).
  { rewrite Zlt_Qlt. rewrite inject_Z_plus in Hhi.
    change (inject_Z 1) with 1 in Hhi. change (inject_Z (-1)) with (-1). lra. }
  lia.
Qed.

(** A number that is not negative rounds to a positive integer exactly when
    it exceeds one half; it never rounds to a negative one. *)
Lemma round_half_even_positive (x : Q) :
  0 <= x ->
  (0 <= round_half_even x)%Z /\ ((0 < round_half_even x)%Z <-> 1 # 2 < x).
Proof.
  intro H0.
  assert (F : (0 <= Qfloor x)%Z).
  { change 0%Z with (Qfloor 0). now apply Qfloor_resp_le. }
  pose proof (Qfloor_le x) as Hlo.
  destruct (Qlt_le_dec x 1) as [H1 | H1].
  - pose proof (Qfloor_small x H0 H1) as E.
    unfold round_half_even. rewrite E. change (inject_Z 0) with 0.
    destruct (Qltb (x - 0) (1 # 2)) eqn:E1.
    + apply Qltb_true in E1. split; [lia |]. split; [lia | lra].
    + apply Qltb_false in E1.
      destruct (Qltb (1 # 2) (x - 0)) eqn:E2.
      * apply Qltb_true in E2. split; [lia |]. split; [lra | lia].
      * apply Qltb_false in E2. cbn. split; [lia |]. split; [lia | lra].
  - assert (G : (1 <= Qfloor x)%Z).
    { change 1%Z with (Qfloor 1). now apply Qfloor_resp_le. }
    destruct (round_half_even_cases x) as [[-> _] | [-> _]];
      (split; [lia |]; split; [lra | lia]).
Qed.

(** ** The amounts of the table *)

Lemma str_replace_app (old : ascii) (new s t : string) :
  str_replace old new (s ++ t)
  = (str_replace old new s ++ str_replace old new t)%string.
Proof.
  induction s as [|a s IH]; cbn [append str_replace]; [reflexivity |].
  destruct (Ascii.eqb a old); rewrite IH; [| reflexivity].
  clear IH.
  generalize (str_replace old new s) (str_replace old new t).
  intros u v. induction new as [|c new IHn]; cbn [append];
    [reflexivity | now rewrite IHn].
Qed.

Lemma minus_sign_chars (x : Q) (a : ascii) :
  In a (list_ascii_of_string (minus_sign x)) -> a = "-"%char.
Proof.
  unfold minus_sign. destruct (Qltb x 0); cbn; [| contradiction].
  intros [H | H]; [now symmetry | contradiction].
Qed.

(** What is left of a displayed amount once the dollar sign and the commas
    are taken out: the sign and the digits. *)
Lemma money_stripped (x : Q) :
  str_replace "," "" (str_replace "$" "" (money x))
  = (minus_sign x ++ rounded_digits x)%string.
Proof.
  unfold money, format_comma_0f.
  cbn [append str_replace]. change (Ascii.eqb "$" "$") with true. cbn iota.
  cbn [append].
  assert (E : str_replace "$" ""
                (minus_sign x ++ group_thousands (rounded_digits x))
              = (minus_sign x ++ group_thousands (rounded_digits x))%string).
  { apply str_replace_absent. intros a Ha.
    rewrite list_ascii_of_append in Ha.
    apply in_app_or in Ha as [Ha | Ha].
    - apply minus_sign_chars in Ha. now subst a.
    - apply group_thousands_chars in Ha as [-> | Ha]; [discriminate |].
      apply digits_are_digits in Ha. intros ->. discriminate Ha. }
  rewrite E, str_replace_app. f_equal.
  - apply str_replace_absent. intros a Ha.
    apply minus_sign_chars in Ha. now subst a.
  - apply group_thousands_undone. intros a Ha.
    apply digits_are_digits in Ha. intros ->. discriminate Ha.
Qed.

Lemma Qabs_rounds_nonneg (x : Q) : (0 <= round_half_even (Qabs x))%Z.
Proof.
  apply round_half_even_positive, Qabs_nonneg.
Qed.

Lemma money_value (x : Q) :
  py_float (str_replace "," "" (str_replace "$" "" (money x)))
  = Some (inject_Z (rounded_amount x)).
Proof.
  rewrite money_stripped. unfold minus_sign, rounded_amount, rounded_digits.
  pose proof (Qabs_rounds_nonneg x) as H.
  destruct (Qltb x 0).
  - rewrite py_float_minus_digits, Z2N.id by exact H. reflexivity.
  - cbn [append]. rewrite py_float_digits, Z2N.id by exact H. reflexivity.
Qed.

(** X14.  Reading a displayed amount back, as the table does (the dollar
    sign and the commas taken out, the rest given to [float]), always
    succeeds and gives an integer nearest to the amount, within half a
    dollar; that integer is positive exactly when the amount exceeds one
    half. *)
Theorem displayed_amount_reads_back :
  forall x : Q,
  exists n : Z,
    py_float (str_replace "," "" (str_replace "$" "" (money x)))
    = Some (inject_Z n) /\
    Qabs (x - inject_Z n) <= 1 # 2 /\
    ((0 < n)%Z <-> 1 # 2 < x).
Proof.
  intro x. exists (rounded_amount x).
  split; [apply money_value |].
  unfold rounded_amount.
  pose proof (round_half_even_near (Qabs x)) as Near.
  apply Qabs_Qle_condition in Near.
  destruct (round_half_even_positive (Qabs x) (Qabs_nonneg x)) as [Nonneg Pos].
  destruct (Qltb x 0) eqn:E.
  - apply Qltb_true in E.
    assert (Ex : Qabs x == - x) by (apply Qabs_neg; lra).
    split.
    + rewrite inject_Z_opp. apply Qabs_Qle_condition.
      set (m := inject_Z (round_half_even (Qabs x))) in *. lra.
    + split; [lia | lra].
  - apply Qltb_false in E.
    assert (Ex : Qabs x == x) by (now apply Qabs_pos).
    split.
    + apply Qabs_Qle_condition.
      set (m := inject_Z (round_half_even (Qabs x))) in *. lra.
    + rewrite Pos, Ex. reflexivity.
Qed.

(** X15.  [highlight_positive] never fails on a row of the table, and it
    colours the row exactly when the cumulative cash flow exceeds one half:
    the test is made on the rounded amount that is displayed. *)
Theorem highlight_threshold :
  forall r : Row.t,
    highlight_positive (display_row r)
    = Some (if Qltb (1 # 2) (Row.cumulative_cf r)
            then repeat "background-color: #d4edda"%string 6
            else repeat ""%string 6).
Proof.
  intro r. unfold highlight_positive, display_row.
  cbn [DisplayRow.Cumulative_CF].
  rewrite money_value. f_equal.
  set (x := Row.cumulative_cf r).
  assert (E : Qltb 0 (inject_Z (rounded_amount x)) = Qltb (1 # 2) x);
    [| now rewrite E].
  apply eq_true_iff_eq. rewrite !Qltb_true.
  change 0 with (inject_Z 0). rewrite <- Zlt_Qlt.
  unfold rounded_amount.
  destruct (round_half_even_positive (Qabs x) (Qabs_nonneg x)) as [Nonneg Pos].
  destruct (Qltb x 0) eqn:Neg.
  - apply Qltb_true in Neg. split; [lia | lra].
  - apply Qltb_false in Neg.
    rewrite Pos, (Qabs_pos x Neg). reflexivity.
Qed.

Lemma rounded_amount_positive (x : Q) :
  (0 < rounded_amount x)%Z <-> 1 # 2 < x.
Proof.
  unfold rounded_amount.
  destruct (round_half_even_positive (Qabs x) (Qabs_nonneg x)) as [Nonneg Pos].
  destruct (Qltb x 0) eqn:Neg.
  - apply Qltb_true in Neg. split; [lia | lra].
  - apply Qltb_false in Neg. rewrite Pos, (Qabs_pos x Neg). reflexivity.
Qed.

Lemma highlighted_iff (r : Row.t) :
  highlight_positive (display_row r)
  = Some (repeat "background-color: #d4edda"%string 6)
  <-> 1 # 2 < Row.cumulative_cf r.
Proof.
  unfold highlight_positive, display_row. cbn [DisplayRow.Cumulative_CF].
  rewrite money_value, <- rounded_amount_positive.
  destruct (Qltb 0 (inject_Z (rounded_amount (Row.cumulative_cf r)))) eqn:E.
  - apply Qltb_true in E. change 0 with (inject_Z 0) in E.
    rewrite <- Zlt_Qlt in E. split; [intros _; exact E | reflexivity].
  - apply Qltb_false in E. change 0 with (inject_Z 0) in E.
    rewrite <- Zle_Qle in E. split; [discriminate | lia].
Qed.

Lemma string_length_append (s t : string) :
  String.length (s ++ t) = (String.length s + String.length t)%nat.
Proof.
  induction s as [|a s IH]; cbn; [reflexivity | now rewrite IH].
Qed.

Lemma str_replace_result_chars (old : ascii) (new s : string) (a : ascii) :
  (forall c, In c (list_ascii_of_string new) -> c <> old) ->
  In a (list_ascii_of_string (str_replace old new s)) -> a <> old.
Proof.
  intros Hnew. induction s as [|c s IH]; cbn [str_replace]; intro H.
  - destruct H.
  - destruct (Ascii.eqb c old) eqn:E.
    + rewrite list_ascii_of_append in H.
      apply in_app_or in H as [H | H]; [now apply Hnew | now apply IH].
    + cbn in H. destruct H as [<- | H]; [now apply Ascii.eqb_neq | now apply IH].
Qed.

(** X16.  The name of the downloaded file never contains a space, whatever
    the name of the template: every space of the name has become an
    underscore and the other characters are kept, so the file name is the
    name, as long as it was, followed by [_analysis.csv]. *)
Theorem download_file_name_has_no_space :
  forall template : UseCaseTemplate,
    ~ In " "%char (list_ascii_of_string (download_file_name template)) /\
    String.length (download_file_name template)
    = (String.length (Template.name template) + 13)%nat /\
    ((forall a, In a (list_ascii_of_string (Template.name template)) ->
                a <> " "%char) ->
     download_file_name template
     = (Template.name template ++ "_analysis.csv")%string).
Proof.
  intro template. unfold download_file_name.
  generalize (Template.name template) as name. intro name.
  repeat split.
  - intro H. rewrite list_ascii_of_append in H.
    apply in_app_or in H as [H | H].
    + apply (str_replace_result_chars " " "_" name " ") in H; [now apply H |].
      intros c [<- | []]. discriminate.
    + cbn in H. repeat (destruct H as [H | H]; [discriminate H |]).
      exact H.
  - rewrite string_length_append. f_equal.
    induction name as [|a name IH]; cbn [str_replace]; [reflexivity |].
    destruct (Ascii.eqb a " "); cbn; now rewrite IH.
  - intro H. f_equal.
    induction name as [|a name IH]; cbn [str_replace]; [reflexivity |].
    destruct (Ascii.eqb a " ") eqn:E.
    + apply Ascii.eqb_eq in E. destruct (H a); [now left | exact E].
    + f_equal. apply IH. intros c Hc. apply H. now right.
Qed.

(** ** The page over a returned ledger *)

Section Page.

Variable template : UseCaseTemplate.
Variables initial_investment annual_maintenance_pct : Q.
Variables revenue_lift_pct cost_savings_pct discount_rate : Q.
Variables time_horizon base_volume : Z.
Variables base_value process_cost : Q.

Local Abbreviation annual_maintenance :=
  (annual_maintenance_of initial_investment annual_maintenance_pct).
Local Abbreviation revenue_lift_amount :=
  (revenue_lift_amount_of template base_volume base_value revenue_lift_pct).
Local Abbreviation cost_savings_amount :=
  (cost_savings_amount_of template base_volume process_cost cost_savings_pct).
Local Abbreviation run :=
  (calculate_financials template initial_investment annual_maintenance_pct
     revenue_lift_pct cost_savings_pct discount_rate time_horizon base_volume
     base_value process_cost).
Local Abbreviation valid :=
  (valid_input template initial_investment annual_maintenance_pct
     revenue_lift_pct cost_savings_pct discount_rate time_horizon base_volume
     base_value process_cost).
Local Abbreviation ledger :=
  (ledger_upto revenue_lift_amount cost_savings_amount annual_maintenance
     initial_investment discount_rate (Z.to_nat time_horizon)).
Local Abbreviation metrics :=
  (metrics_of initial_investment annual_maintenance_pct time_horizon).
Local Abbreviation row y :=
  (row_at revenue_lift_amount cost_savings_amount annual_maintenance
     initial_investment discount_rate y).
Local Abbreviation cum y :=
  (cum_at revenue_lift_amount cost_savings_amount annual_maintenance
     initial_investment y).
Local Abbreviation net year :=
  (net_cf_at revenue_lift_amount cost_savings_amount annual_maintenance year).

Lemma returns_when_valid :
  valid ->
  exists p,
    payback_loop ledger ledger 0 = Ok p /\ run = Ok (ledger, metrics ledger p).
Proof.
  intro V. apply run_returns. eapply valid_discount. exact V.
Qed.

(** A positive cumulative cash flow comes with a year whose net cash flow
    is not negative. *)
Lemma positive_cum_has_nonneg_net (y : nat) :
  valid -> 0 < cum y -> exists i, (i <= y)%nat /\ 0 <= net (Z.of_nat (S i)).
Proof.
  intros V. induction y as [|k IH]; intro Pos.
  - exists O. split; [lia |].
    destruct (amounts_nonneg _ _ _ _ _ _ _ _ _ _ V) as [Hra Hca].
    pose proof (maintenance_at_most_investment _ _ _ _ _ _ _ _ _ _ V) as Hm.
    unfold net_cf_at. change (Z.of_nat 1) with 1%Z.
    rewrite ramp_factor_year_1. change (inject_Z (1 - 1)) with 0.
    cbn [cum_at] in Pos. lra.
  - destruct (Qlt_le_dec 0 (cum k)) as [Hk | Hk].
    + destruct (IH Hk) as (i & Hi & Hn). exists i. split; [lia | exact Hn].
    + exists k. split; [lia |]. cbn [cum_at] in Pos. lra.
Qed.

Lemma cum_grows_once_positive (y y' : nat) :
  valid -> 0 < cum y -> (y <= y')%nat -> cum y <= cum y'.
Proof.
  intros V Pos Hyy.
  destruct (positive_cum_has_nonneg_net y V Pos) as (i & Hi & Hn).
  replace y' with (y + (y' - y))%nat by lia.
  now apply (cum_mono_after _ _ _ _ _ _ _ _ _ _ i y V Hn Hi).
Qed.

(** X17.  In the table of a valid input the highlighted rows are the last
    ones: once a year is highlighted, every later year is highlighted too. *)
Theorem highlighted_rows_are_the_last :
  valid_input template initial_investment annual_maintenance_pct
    revenue_lift_pct cost_savings_pct discount_rate time_horizon base_volume
    base_value process_cost ->
  exists df m,
    calculate_financials template initial_investment annual_maintenance_pct
      revenue_lift_pct cost_savings_pct discount_rate time_horizon
      base_volume base_value process_cost = Ok (df, m) /\
    forall y y' r r',
      (y <= y')%nat ->
      nth_error df y = Some r ->
      nth_error df y' = Some r' ->
      highlight_positive (display_row r)
      = Some (repeat "background-color: #d4edda"%string 6) ->
      highlight_positive (display_row r')
      = Some (repeat "background-color: #d4edda"%string 6).
Proof.
  intro V.
  destruct (returns_when_valid V) as (p & _ & Hrun).
  exists ledger, (metrics ledger p).
  split; [exact Hrun |].
  intros y y' r r' Hyy Hr Hr' H.
  apply highlighted_iff in H. apply highlighted_iff.
  apply ledger_upto_nth_inv in Hr as [_ ->].
  apply ledger_upto_nth_inv in Hr' as [_ ->].
  rewrite row_cumulative in *.
  assert (Pos : 0 < cum y) by lra.
  pose proof (cum_grows_once_positive y y' V Pos Hyy). lra.
Qed.

Lemma years_text_is_not_NA (s : string) : (s ++ " Years")%string <> "N/A"%string.
Proof.
  intro H. apply (f_equal String.length) in H.
  rewrite string_length_append in H. cbn in H. lia.
Qed.

Lemma months_text_is_not_not_achieved (s : string) :
  (s ++ " Months")%string <> "Not Achieved"%string.
Proof.
  intro H.
  assert (E : forall t u : string,
             t = u ->
             rev (list_ascii_of_string t) = rev (list_ascii_of_string u))
    by (now intros t u ->).
  apply E in H. rewrite list_ascii_of_append, rev_app_distr in H.
  cbn in H. discriminate H.
Qed.

(** X18.  For every valid input the payback card reads ['N/A'], and its
    delta ['Not Achieved'], exactly when no year of the ledger has a positive
    cumulative cash flow; when some year has one, the payback is a finite
    number and the card shows it with one decimal and in months. *)
Theorem payback_card_not_achieved :
  valid_input template initial_investment annual_maintenance_pct
    revenue_lift_pct cost_savings_pct discount_rate time_horizon base_volume
    base_value process_cost ->
  exists df m,
    calculate_financials template initial_investment annual_maintenance_pct
      revenue_lift_pct cost_savings_pct discount_rate time_horizon
      base_volume base_value process_cost = Ok (df, m) /\
    (Card.value (payback_card m) = "N/A"%string <-> never_positive df) /\
    (Card.delta (payback_card m) = "Not Achieved"%string <-> never_positive df) /\
    (forall y,
        first_positive df y ->
        exists q,
          Metrics.payback m = PaybackNum (Finite q) /\
          Card.value (payback_card m) = (format_1f q ++ " Years")%string /\
          Card.delta (payback_card m)
          = (format_0f (q * 12) ++ " Months")%string).
Proof.
  intro V.
  destruct (returns_when_valid V) as (p & Hp & Hrun).
  exists ledger, (metrics ledger p).
  split; [exact Hrun |].
  unfold payback_card. cbn [metrics_of Metrics.payback Card.value Card.delta].
  assert (NA : p = PaybackNA <-> never_positive ledger).
  { split.
    - intros ->.
      destruct (find_payback_spec ledger)
        as [[_ N] | (y & _ & [[_ H] | (prev & curr & _ & _ & _ & H)])];
        [exact N | |]; rewrite Hp in H; discriminate H.
    - intro N. rewrite (find_payback_never _ N) in Hp. now injection Hp. }
  split; [| split].
  - rewrite <- NA. destruct p as [|v]; [tauto |].
    split; [intro H; now apply years_text_is_not_NA in H | discriminate].
  - rewrite <- NA. destruct p as [|v]; [tauto |].
    split; [intro H; now apply months_text_is_not_not_achieved in H
           | discriminate].
  - intros y F.
    destruct (find_payback_spec ledger)
      as [[_ N] | (y' & _ & [[_ H] | (prev & curr & _ & _ & _ & H)])].
    + destruct (never_positive_not_first _ _ N F).
    + rewrite Hp in H. injection H as ->.
      eexists. repeat split.
    + rewrite Hp in H. injection H as ->.
      eexists. repeat split.
Qed.

(** X19.  For every valid input with no initial investment the return on
    investment has no finite value and the card shows it so: it reads
    ['inf%'] and ['inf% Annual'] when there is any benefit, ['nan%'] and
    ['nan% Annual'] when there is none. *)
Theorem roi_card_without_investment :
  valid_input template initial_investment annual_maintenance_pct
    revenue_lift_pct cost_savings_pct discount_rate time_horizon base_volume
    base_value process_cost ->
  initial_investment == 0 ->
  exists df m,
    calculate_financials template initial_investment annual_maintenance_pct
      revenue_lift_pct cost_savings_pct discount_rate time_horizon
      base_volume base_value process_cost = Ok (df, m) /\
    ((0 < Metrics.total_benefits m /\
      Card.value (roi_card m time_horizon) = "inf%"%string /\
      Card.delta (roi_card m time_horizon) = "inf% Annual"%string)
     \/ (Metrics.total_benefits m == 0 /\
         Card.value (roi_card m time_horizon) = "nan%"%string /\
         Card.delta (roi_card m time_horizon) = "nan% Annual"%string)).
Proof.
  intros V Hi.
  destruct (returns_when_valid V) as (p & _ & Hrun).
  exists ledger, (metrics ledger p).
  split; [exact Hrun |].
  unfold roi_card.
  cbn [metrics_of Metrics.roi Metrics.total_benefits Card.value Card.delta].
  pose proof (total_benefits_nonneg _ _ _ _ _ _ _ _ _ _ V) as Hb.
  pose proof (horizon_ge_1 _ _ _ _ _ _ _ _ _ _ V) as Hh.
  set (tb := column_sum Row.operational_benefit ledger) in *.
  set (tc := initial_investment
             + initial_investment * annual_maintenance_pct
               * inject_Z time_horizon).
  assert (Hc : tc == 0) by (unfold tc; rewrite Hi; ring).
  unfold np_truediv. apply Qeq_bool_iff in Hc as Hz. rewrite Hz.
  destruct (Qltb 0 (tb - tc)) eqn:Pos.
  - left. apply Qltb_true in Pos. split; [lra |].
    change (np_mul PosInf 100) with PosInf. unfold np_div.
    assert (E : Qltb (inject_Z time_horizon) 0 = false)
      by (apply Qltb_false; lra).
    rewrite E. split; reflexivity.
  - apply Qltb_false in Pos.
    destruct (Qltb (tb - tc) 0) eqn:Neg.
    + apply Qltb_true in Neg. lra.
    + right. split; [lra |]. split; reflexivity.
Qed.

End Page.

(** ** The page as a whole *)

Lemma highlight_style (r : Row.t) :
  exists style,
    highlight_positive (display_row r) = Some style /\
    List.length style = 6%nat.
Proof.
  unfold highlight_positive, display_row. cbn [DisplayRow.Cumulative_CF].
  rewrite money_value. eexists. split; [reflexivity |].
  destruct (Qltb 0 _); reflexivity.
Qed.

Lemma styles_computed (df : DataFrame) :
  exists styles,
    page_map
      (fun row =>
         match highlight_positive row with
         | Some style => Page style
         | None => Stopped UnreadAmount
         end)
      (display_df df) = Page styles /\
    List.length styles = List.length df /\
    Forall (fun style => List.length style = 6%nat) styles.
Proof.
  induction df as [|r df (styles & IH & Hlen & Hall)]; cbn [display_df map page_map].
  - exists []. repeat split. constructor.
  - destruct (highlight_style r) as (style & Hs & H6).
    rewrite Hs. cbn [page_bind].
    fold (display_df df). rewrite IH. cbn [page_bind].
    exists (style :: styles). repeat split.
    + cbn. now rewrite Hlen.
    + now constructor.
Qed.

Lemma widget_values_are_valid (template : UseCaseTemplate) (w : Widgets.t) :
  (0 <= Template.revenue_factor template
   /\ Template.revenue_factor template <= 1) ->
  (0 <= Template.savings_factor template
   /\ Template.savings_factor template <= 1) ->
  within_widget_bounds w ->
  valid_input template
    (inject_Z (Widgets.initial_investment w))
    (Widgets.annual_maintenance_pct w)
    (Widgets.revenue_lift_pct w)
    (Widgets.cost_savings_pct w)
    (Widgets.discount_rate w)
    (Widgets.time_horizon w)
    (Widgets.base_volume w)
    (Widgets.base_value w)
    (Widgets.process_cost w).
Proof.
  intros Hr Hs (Hi & Ha & Hv & Hval & Hpc & Hrl & Hcs & Hd & Hh).
  unfold valid_input.
  assert (0 <= inject_Z (Widgets.initial_investment w)).
  { change 0 with (inject_Z 0). now rewrite <- Zle_Qle. }
  assert (1 <= Widgets.time_horizon w)%Z.
  { cbn in Hh. lia. }
  repeat split; try assumption; try lia; lra.
Qed.

Lemma main_for_template (key : string) (template : UseCaseTemplate)
  (w : Widgets.t) :
  templates_getitem USE_CASE_TEMPLATES key = Page template ->
  (0 <= Template.revenue_factor template
   /\ Template.revenue_factor template <= 1) ->
  (0 <= Template.savings_factor template
   /\ Template.savings_factor template <= 1) ->
  List.length (Template.impact_categories template) = 3%nat ->
  List.length (Template.category_colors template) = 3%nat ->
  within_widget_bounds w ->
  exists page,
    main key w = Page page /\
    PageContent.button_labels page
    = map (fun kt => Template.name (snd kt)) USE_CASE_TEMPLATES /\
    PageContent.heading page = Template.name template /\
    List.length (PageContent.cards page) = 4%nat /\
    Z.of_nat (List.length (PageContent.table page))
    = (Widgets.time_horizon w + 1)%Z /\
    List.length (PageContent.styles page)
    = List.length (PageContent.table page) /\
    Forall (fun style => List.length style = 6%nat) (PageContent.styles page) /\
    List.length (Figure.data (PageContent.impact_chart page)) = 3%nat /\
    List.length (Figure.data (PageContent.cash_flow_chart page)) = 2%nat.
Proof.
  intros Hkey Hr Hs Hcat Hcol Hw.
  pose proof (widget_values_are_valid template w Hr Hs Hw) as V.
  destruct (returns_when_valid _ _ _ _ _ _ _ _ _ _ V) as (p & _ & Hrun).
  set (df := ledger_upto _ _ _ _ _ _) in Hrun.
  destruct (impact_chart_traces df template ltac:(lia) ltac:(lia))
    as (fig & Hfig & Hdata).
  destruct (styles_computed df) as (styles & Hstyles & Hlen & Hall).
  unfold main.
  change (page_map _ use_case_buttons)
    with (Page (map (fun kt => Template.name (snd kt)) USE_CASE_TEMPLATES)).
  cbn [page_bind]. rewrite Hkey. cbn [page_bind].
  rewrite Hrun, Hfig, Hstyles. cbn [page_bind].
  eexists. split; [reflexivity |].
  cbn [PageContent.button_labels PageContent.heading PageContent.cards
         PageContent.table PageContent.styles PageContent.impact_chart
         PageContent.cash_flow_chart].
  repeat split; try assumption.
  - unfold display_df. rewrite length_map. unfold df.
    rewrite ledger_upto_length.
    destruct V as (Hh & _). lia.
  - rewrite Hlen. unfold display_df. now rewrite length_map.
  - rewrite Hdata, length_map, length_combine, length_seq, Hcat. reflexivity.
Qed.

(** X20.  For every use case the buttons offer and every value the widgets
    can return, the page is computed and nothing raises: no key is missing,
    the projection returns, the impact chart finds its three weights and
    colours and every displayed amount reads back.  The page has the four
    button labels, four cards, a table of [time_horizon + 1] rows with a
    style of six cells for each, three stacked bar traces and the two
    traces of the cash-flow chart. *)
Theorem page_is_computed_for_every_widget_state :
  forall (selected_use_case : string) (w : Widgets.t),
    In selected_use_case use_case_buttons ->
    within_widget_bounds w ->
    exists page,
      main selected_use_case w = Page page /\
      PageContent.button_labels page
      = [ "Order Management & Validation"; "Invoice Processing & Approval";
          "Insurance Claims Adjudication"; "Customer Service Automation" ]%string /\
      List.length (PageContent.cards page) = 4%nat /\
      Z.of_nat (List.length (PageContent.table page))
      = (Widgets.time_horizon w + 1)%Z /\
      List.length (PageContent.styles page)
      = List.length (PageContent.table page) /\
      Forall (fun style => List.length style = 6%nat) (PageContent.styles page) /\
      List.length (Figure.data (PageContent.impact_chart page)) = 3%nat /\
      List.length (Figure.data (PageContent.cash_flow_chart page)) = 2%nat.
Proof.
  intros key w Hkey Hw.
  assert (T : exists template,
             templates_getitem USE_CASE_TEMPLATES key = Page template /\
             (0 <= Template.revenue_factor template
              /\ Template.revenue_factor template <= 1) /\
             (0 <= Template.savings_factor template
              /\ Template.savings_factor template <= 1) /\
             List.length (Template.impact_categories template) = 3%nat /\
             List.length (Template.category_colors template) = 3%nat).
  { cbn in Hkey.
    destruct Hkey as [<- | [<- | [<- | [<- | []]]]];
      eexists; (split; [reflexivity |]); cbn; repeat split; lra. }
  destruct T as (template & Hlookup & Hr & Hs & Hcat & Hcol).
  destruct (main_for_template key template w Hlookup Hr Hs Hcat Hcol Hw)
    as (page & Hpage & Hlabels & _ & Hrest).
  exists page. split; [exact Hpage | split; [exact Hlabels | exact Hrest]].
Qed.

(** * The further properties on concrete inputs *)

Lemma order_management_five_years_returns :
  exists df m,
    calculate_financials order_management 500000 0.20 0.18 0.25 0.08 5
      50000 2500 85 = Ok (df, m).
Proof.
  destruct (returns_when_valid order_management 500000 0.20 0.18 0.25 0.08 5
              50000 2500 85) as (p & _ & Hrun); [check_valid_input |].
  eexists. eexists. exact Hrun.
Qed.

Lemma running_total_of_order_management :
  exists df m,
    calculate_financials order_management 500000 0.20 0.18 0.25 0.08 5
      50000 2500 85 = Ok (df, m) /\
    (forall y r,
        nth_error df y = Some r ->
        Row.cumulative_cf r == total Row.net_cash_flow (firstn (S y) df)) /\
    (forall r,
        nth_error df (List.length df - 1) = Some r ->
        Row.cumulative_cf r == total Row.net_cash_flow df).
Proof.
  destruct order_management_five_years_returns as (df & m & Hrun).
  exists df, m. split; [exact Hrun |].
  apply (cumulative_is_running_total order_management 500000 0.20 0.18 0.25
           0.08 5 50000 2500 85 df m Hrun).
Defined.

Lemma full_benefit_of_order_management_in_year_4 :
  exists df m r,
    calculate_financials order_management 500000 0.20 0.18 0.25 0.08 5
      50000 2500 85 = Ok (df, m) /\
    nth_error df 4 = Some r /\
    Row.operational_benefit r
    == (1 + 0.03 * (Qyear 4 - 1))
       * (revenue_lift_amount_of order_management 50000 2500 0.18
          + cost_savings_amount_of order_management 50000 85 0.25).
Proof.
  eexists. eexists. eexists.
  split; [vm_compute; reflexivity |].
  split; [reflexivity |].
  match goal with
  | |- Row.operational_benefit ?r == _ =>
      apply (full_benefit_from_year_3 order_management 500000 0.20 0.18 0.25
               0.08 5 50000 2500 85 _ _ eq_refl 4%nat r eq_refl)
  end.
  lia.
Defined.

Lemma benefits_of_order_management_never_decrease :
  valid_input order_management 500000 0.20 0.18 0.25 0.08 5 50000 2500 85 /\
  exists df m,
    calculate_financials order_management 500000 0.20 0.18 0.25 0.08 5
      50000 2500 85 = Ok (df, m) /\
    (forall y r r',
        nth_error df y = Some r ->
        nth_error df (S y) = Some r' ->
        Row.operational_benefit r <= Row.operational_benefit r') /\
    (forall y r r',
        (1 <= y)%nat ->
        nth_error df y = Some r ->
        nth_error df (S y) = Some r' ->
        Row.net_cash_flow r <= Row.net_cash_flow r').
Proof.
  split; [check_valid_input |].
  apply (benefits_never_decrease order_management 500000 0.20 0.18 0.25 0.08 5
           50000 2500 85).
  check_valid_input.
Defined.

Lemma order_management_stays_positive :
  valid_input order_management 5000000 0.20 0.18 0.25 0.08 3 50000 2500 85 /\
  exists df m,
    calculate_financials order_management 5000000 0.20 0.18 0.25 0.08 3
      50000 2500 85 = Ok (df, m) /\
    first_positive df 1 /\
    forall y' r',
      (1 <= y')%nat -> nth_error df y' = Some r' -> 0 < Row.cumulative_cf r'.
Proof.
  split; [check_valid_input |].
  destruct (positive_cumulative_stays_positive order_management 5000000 0.20
              0.18 0.25 0.08 3 50000 2500 85)
    as (df & m & Hrun & Hpos); [check_valid_input |].
  exists df, m. split; [exact Hrun |].
  assert (F : first_positive df 1).
  { vm_compute in Hrun. injection Hrun as <- _. split.
    - eexists. split; [reflexivity | reflexivity].
    - intros k r Hk Hr. destruct k as [|k]; [| lia].
      injection Hr as <-. vm_compute. discriminate. }
  split; [exact F |].
  intros y' r'. apply (Hpos 1%nat y' r' F).
Defined.

Lemma roi_of_order_management_is_finite :
  valid_input order_management 500000 0.20 0.18 0.25 0.08 5 50000 2500 85 /\
  exists df m q,
    calculate_financials order_management 500000 0.20 0.18 0.25 0.08 5
      50000 2500 85 = Ok (df, m) /\
    Metrics.roi m = Finite q /\
    -100 <= q /\
    (0 < q <-> Metrics.total_costs m < Metrics.total_benefits m).
Proof.
  split; [check_valid_input |].
  destruct (finite_roi_needs_an_investment order_management 500000 0.20
              0.18 0.25 0.08 5 50000 2500 85)
    as (df & m & Hrun & Hfin); [check_valid_input |].
  assert (R : exists q, Metrics.roi m = Finite q).
  { vm_compute in Hrun. injection Hrun as _ <-. eexists. reflexivity. }
  destruct R as (q & Hq).
  exists df, m, q. split; [exact Hrun |]. split; [exact Hq |].
  apply (Hfin q Hq).
Defined.

Lemma no_lift_no_savings_no_payback :
  valid_input order_management 500000 0.20 0 0 0.08 5 50000 2500 85 /\
  exists df m,
    calculate_financials order_management 500000 0.20 0 0 0.08 5
      50000 2500 85 = Ok (df, m) /\
    Metrics.total_benefits m == 0 /\
    Metrics.payback m = PaybackNA /\
    Metrics.npv m <= 0 /\
    exists q, Metrics.roi m = Finite q /\ q == -100.
Proof.
  split; [check_valid_input |].
  destruct (no_benefit_no_payback order_management 500000 0.20 0 0 0.08 5
              50000 2500 85)
    as (df & m & Hrun & Hb & _ & Hp & Hn & Hroi);
    [check_valid_input | reflexivity | reflexivity |].
  exists df, m. repeat split; try assumption.
  apply Hroi. reflexivity.
Defined.

Lemma payback_of_large_investment_lies_in_year_1 :
  exists df m q,
    calculate_financials order_management 5000000 0.20 0.18 0.25 0.08 3
      50000 2500 85 = Ok (df, m) /\
    first_positive df 1 /\
    payback_loop df df 0 = Ok (PaybackNum (Finite q)) /\
    Qyear 0 <= q /\ q < Qyear 1.
Proof.
  destruct (returns_when_valid order_management 5000000 0.20 0.18 0.25 0.08 3
              50000 2500 85) as (p & _ & Hrun); [check_valid_input |].
  match type of Hrun with
  | _ = Ok (?df, _) => set (df0 := df) in *
  end.
  assert (F : first_positive df0 1).
  { split.
    - eexists. split; [reflexivity | reflexivity].
    - intros k r Hk Hr. destruct k as [|k]; [| lia].
      injection Hr as <-. vm_compute. discriminate. }
  destruct (payback_lies_in_crossing_year df0 1%nat (le_n 1) F)
    as (q & Hq & Hlo & Hhi).
  eexists. eexists. exists q.
  split; [exact Hrun |].
  split; [exact F |].
  split; [exact Hq |].
  split; [exact Hlo | exact Hhi].
Defined.

Lemma impact_chart_bars_of_order_management :
  exists df m fig,
    calculate_financials order_management 500000 0.20 0.18 0.25 0.08 5
      50000 2500 85 = Ok (df, m) /\
    create_impact_chart_checked hex_color df order_management = Drawn fig /\
    map trace_name (Figure.data fig)
    = Template.impact_categories order_management /\
    map trace_color (Figure.data fig)
    = ["#3B82F6"; "#10B981"; "#8B5CF6"]%string /\
    Figure.barmode fig = Some "stack"%string.
Proof.
  destruct order_management_five_years_returns as (df & m & Hrun).
  destruct (impact_chart_has_one_bar_per_category hex_color df
              order_management)
    as (fig & Hfig & Hnames & Hcolors & _ & _ & Hmode);
    [cbn; lia | cbn; lia | reflexivity |].
  exists df, m, fig. repeat split; assumption.
Defined.



Lemma cash_flow_chart_of_order_management :
  exists df m bars line,
    calculate_financials order_management 500000 0.20 0.18 0.25 0.08 5
      50000 2500 85 = Ok (df, m) /\
    Figure.data (create_cash_flow_chart df) = [bars; line] /\
    trace_x bars = [0; 1; 2; 3; 4; 5]%Z /\
    trace_x line = trace_x bars /\
    trace_y bars = column Row.net_cash_flow df /\
    (forall y c,
        nth_error (trace_y line) y = Some c ->
        c == Qsum (firstn (S y) (trace_y bars))).
Proof.
  destruct order_management_five_years_returns as (df & m & Hrun).
  destruct (cash_flow_chart_of_the_ledger order_management 500000 0.20 0.18
              0.25 0.08 5 50000 2500 85 df m Hrun)
    as (bars & line & Hdata & _ & _ & Hx & Hxl & Hy & Hsum & _).
  exists df, m, bars, line. repeat split; assumption.
Defined.

Lemma highlighted_rows_of_order_management :
  valid_input order_management 500000 0.20 0.18 0.25 0.08 5 50000 2500 85 /\
  exists df m,
    calculate_financials order_management 500000 0.20 0.18 0.25 0.08 5
      50000 2500 85 = Ok (df, m) /\
    forall y y' r r',
      (y <= y')%nat ->
      nth_error df y = Some r ->
      nth_error df y' = Some r' ->
      highlight_positive (display_row r)
      = Some (repeat "background-color: #d4edda"%string 6) ->
      highlight_positive (display_row r')
      = Some (repeat "background-color: #d4edda"%string 6).
Proof.
  split; [check_valid_input |].
  apply (highlighted_rows_are_the_last order_management 500000 0.20 0.18 0.25
           0.08 5 50000 2500 85).
  check_valid_input.
Defined.

Lemma payback_card_without_benefit :
  valid_input order_management 500000 0.20 0 0 0.08 5 50000 2500 85 /\
  exists df m,
    calculate_financials order_management 500000 0.20 0 0 0.08 5
      50000 2500 85 = Ok (df, m) /\
    (Card.value (payback_card m) = "N/A"%string <-> never_positive df) /\
    (Card.delta (payback_card m) = "Not Achieved"%string
     <-> never_positive df).
Proof.
  split; [check_valid_input |].
  destruct (payback_card_not_achieved order_management 500000 0.20 0 0 0.08 5
              50000 2500 85)
    as (df & m & Hrun & Hvalue & Hdelta & _); [check_valid_input |].
  exists df, m. repeat split; try assumption; now (apply Hvalue || apply Hdelta).
Defined.

Lemma roi_card_of_order_management_without_investment :
  valid_input order_management 0 0.20 0.18 0.25 0.08 3 50000 2500 85 /\
  exists df m,
    calculate_financials order_management 0 0.20 0.18 0.25 0.08 3
      50000 2500 85 = Ok (df, m) /\
    ((0 < Metrics.total_benefits m /\
      Card.value (roi_card m 3) = "inf%"%string /\
      Card.delta (roi_card m 3) = "inf% Annual"%string)
     \/ (Metrics.total_benefits m == 0 /\
         Card.value (roi_card m 3) = "nan%"%string /\
         Card.delta (roi_card m 3) = "nan% Annual"%string)).
Proof.
  split; [check_valid_input |].
  apply (roi_card_without_investment order_management 0 0.20 0.18 0.25 0.08 3
           50000 2500 85); [check_valid_input | reflexivity].
Defined.

Lemma first_page_of_order_management :
  In "order-management"%string use_case_buttons /\
  within_widget_bounds (default_widgets order_management) /\
  exists page,
    main "order-management" (default_widgets order_management) = Page page /\
    List.length (PageContent.cards page) = 4%nat /\
    List.length (PageContent.table page) = 6%nat /\
    List.length (PageContent.styles page) = 6%nat /\
    List.length (Figure.data (PageContent.impact_chart page)) = 3%nat.
Proof.
  assert (K : In "order-management"%string use_case_buttons)
    by (left; reflexivity).
  assert (B : within_widget_bounds (default_widgets order_management)).
  { unfold within_widget_bounds. cbn.
    repeat split; try lra; try (vm_compute; discriminate).
    right. left. reflexivity. }
  split; [exact K |]. split; [exact B |].
  destruct (page_is_computed_for_every_widget_state "order-management"
              (default_widgets order_management) K B)
    as (page & Hpage & _ & Hcards & Htable & Hstyles & _ & Himpact & _).
  exists page. repeat split; try assumption.
  - cbn in Htable. lia.
  - rewrite Hstyles. cbn in Htable. lia.
Defined.
